(** * Steerable AQP engine: the progressive aggregation core of [main.py]

    A shallow embedding of the query session ([QueryState]), the statistics
    derivation ([calculate_statistics]), the page fetch ([fetch_next_chunk])
    and the two service operations ([start_query], [refine_query]), followed
    by the properties of the engine that the specification states.

    Conventions of the embedding:
    - Python [int] is [Z]; Python [float] (and numpy's [float64]) is the
      kernel's binary64 [float], so that every run of the model computes;
    - the decoded JSON body of a response is a value of [json];
    - [float] applied to a string belongs to the interpreter: the engine
      takes it as a parameter, [float_of_str], and every property holds
      whatever it is;
    - the module-level object [query_state] and the remote source live in a
      [World] threaded through the [Py] monad, in which a computation either
      returns or raises a Python exception, the mutations made before a
      raise staying in place;
    - the two [print] calls of [fetch_next_chunk] are left out; the URL they
      show is kept in the log of requests. What FastAPI does with the
      dictionary an operation returns is outside the model. *)

From Stdlib Require Import ZArith String List Bool Lia.
From Stdlib Require Import Floats DecimalString DecimalPos DecimalZ Uint63.
From stdpp Require Import base option list gmap strings.

Set Warnings "-register-all,-inexact-float".

Local Open Scope Z_scope.
Local Open Scope string_scope.

(** ** Python values *)

(** The Python exceptions that the code can meet. *)
Inductive exn : Type :=
| KeyError
| ValueError
| TypeError
| OverflowError
| RequestException.

Definition exn_eqb (a b : exn) : bool :=
  match a, b with
  | KeyError, KeyError | ValueError, ValueError | TypeError, TypeError
  | OverflowError, OverflowError | RequestException, RequestException => true
  | _, _ => false
  end.

(** The outcome of evaluating an expression: a value, or an exception. *)
Inductive result (A : Type) : Type :=
| Ok (a : A)
| Raise (e : exn).
Arguments Ok {A} a.
Arguments Raise {A} e.

Definition result_bind {A B} (r : result A) (k : A -> result B) : result B :=
  match r with
  | Ok a => k a
  | Raise e => Raise e
  end.

(** What [response.json()] returns: [None], [bool], [int], [float], [str],
    [list] and [dict] (keyed by strings). *)
Inductive json : Type :=
| JNull
| JBool (b : bool)
| JInt (z : Z)
| JFloat (f : float)
| JStr (s : string)
| JList (l : list json)
| JDict (d : gmap string json).

(** A number as Python holds it: the tuples of [calculate_statistics] mix
    [int] and [float] components. *)
Inductive pynum : Type :=
| PyInt (z : Z)
| PyFloat (f : float).

(** [x == 0] on a Python number. *)
Definition pynum_is_zero (x : pynum) : bool :=
  match x with
  | PyInt z => Z.eqb z 0
  | PyFloat f => PrimFloat.eqb f 0%float
  end.

(** ** Float arithmetic of the interpreter *)

(** [int] to [float], rounding to nearest even. The count of a session,
    the one [int] the derivation converts, grows by a page length per call
    and stays far below 2^53, where the conversion is exact. *)
Definition float_of_Z (z : Z) : float :=
  SF2Prim (binary_normalize prec emax z 0 false).

(** [float(n)] for a Python [int]: [OverflowError] when [n] rounds out of
    the finite range. *)
Definition py_float_of_int (z : Z) : result float :=
  let f := float_of_Z z in
  if is_infinity f then Raise OverflowError else Ok f.

(** [x ** 2] on a [float]: the square, [OverflowError] when a finite [x] has
    a square out of range (an infinite or nan [x] raises nothing). The C
    library's [pow] is taken to return the correctly rounded product. *)
Definition py_pow2 (x : float) : result float :=
  let y := (x * x)%float in
  if is_finite x && is_infinity y then Raise OverflowError else Ok y.

(** [not data]: Python's truth value of a decoded body. *)
Definition py_truthy (v : json) : bool :=
  match v with
  | JNull => false
  | JBool b => b
  | JInt z => negb (Z.eqb z 0)
  | JFloat f => negb (PrimFloat.eqb f 0%float)
  | JStr s => negb (String.eqb s "")
  | JList l => match l with [] => false | _ :: _ => true end
  | JDict d => negb (bool_decide (d = ∅))
  end.

(** [len(data)]: defined on [str], [list] and [dict] only. *)
Definition py_len (v : json) : result Z :=
  match v with
  | JStr s => Ok (Z.of_nat (String.length s))
  | JList l => Ok (Z.of_nat (length l))
  | JDict d => Ok (Z.of_nat (size d))
  | JNull | JBool _ | JInt _ | JFloat _ => Raise TypeError
  end.

(** The items a [for] loop over a value with a length visits: the elements
    of a list, the keys of a dict, the characters of a string. *)
Definition py_iter (v : json) : list json :=
  match v with
  | JList l => l
  | JDict d => (fun kv => JStr (fst kv)) <$> map_to_list d
  | JStr s => (fun c => JStr (String c EmptyString)) <$> list_ascii_of_string s
  | JNull | JBool _ | JInt _ | JFloat _ => []
  end.

(** [record[col]] with a string [col]: a dict is looked up ([KeyError] when
    the key is absent); nothing else can be indexed by a string. *)
Definition py_getitem (record : json) (col : string) : result json :=
  match record with
  | JDict d => match d !! col with
               | Some v => Ok v
               | None => Raise KeyError
               end
  | JNull | JBool _ | JInt _ | JFloat _ | JStr _ | JList _ => Raise TypeError
  end.

(** ** The session *)

Definition CHUNK_SIZE : Z := 10000.
Definition API_ENDPOINT : string :=
  "https://data.cityofnewyork.us/resource/t7ny-aygi.json".

Record QueryState : Type := {
  current_offset : Z;
  running_sum : float;
  running_count : Z;
  running_sum_sq : float;
  is_done : bool;
  column_to_query : option string;
  aggregate_function : option string
}.

(** [QueryState.__init__]. *)
Definition QueryState_init : QueryState := {|
  current_offset := 0;
  running_sum := 0%float;
  running_count := 0;
  running_sum_sq := 0%float;
  is_done := false;
  column_to_query := None;
  aggregate_function := None
|}.

(** [QueryState.reset]: every field is assigned, whatever it held. *)
Definition reset (_ : QueryState) : QueryState := {|
  current_offset := 0;
  running_sum := 0%float;
  running_count := 0;
  running_sum_sq := 0%float;
  is_done := false;
  column_to_query := None;
  aggregate_function := None
|}.

(** Attribute assignments. *)
Definition set_current_offset (v : Z) (s : QueryState) : QueryState :=
  {| current_offset := v; running_sum := running_sum s;
     running_count := running_count s; running_sum_sq := running_sum_sq s;
     is_done := is_done s; column_to_query := column_to_query s;
     aggregate_function := aggregate_function s |}.

Definition set_running_sum (v : float) (s : QueryState) : QueryState :=
  {| current_offset := current_offset s; running_sum := v;
     running_count := running_count s; running_sum_sq := running_sum_sq s;
     is_done := is_done s; column_to_query := column_to_query s;
     aggregate_function := aggregate_function s |}.

Definition set_running_count (v : Z) (s : QueryState) : QueryState :=
  {| current_offset := current_offset s; running_sum := running_sum s;
     running_count := v; running_sum_sq := running_sum_sq s;
     is_done := is_done s; column_to_query := column_to_query s;
     aggregate_function := aggregate_function s |}.

Definition set_running_sum_sq (v : float) (s : QueryState) : QueryState :=
  {| current_offset := current_offset s; running_sum := running_sum s;
     running_count := running_count s; running_sum_sq := v;
     is_done := is_done s; column_to_query := column_to_query s;
     aggregate_function := aggregate_function s |}.

Definition set_is_done (v : bool) (s : QueryState) : QueryState :=
  {| current_offset := current_offset s; running_sum := running_sum s;
     running_count := running_count s; running_sum_sq := running_sum_sq s;
     is_done := v; column_to_query := column_to_query s;
     aggregate_function := aggregate_function s |}.

Definition set_column_to_query (v : option string) (s : QueryState) : QueryState :=
  {| current_offset := current_offset s; running_sum := running_sum s;
     running_count := running_count s; running_sum_sq := running_sum_sq s;
     is_done := is_done s; column_to_query := v;
     aggregate_function := aggregate_function s |}.

Definition set_aggregate_function (v : option string) (s : QueryState) : QueryState :=
  {| current_offset := current_offset s; running_sum := running_sum s;
     running_count := running_count s; running_sum_sq := running_sum_sq s;
     is_done := is_done s; column_to_query := column_to_query s;
     aggregate_function := v |}.

(** [agg_func == name], where [agg_func] may still be [None]. *)
Definition agg_is (agg : option string) (name : string) : bool :=
  match agg with
  | Some a => String.eqb a name
  | None => false
  end.

(** [not query_state.column_to_query] is false: a non-empty string. *)
Definition column_selected (col : option string) : bool :=
  match col with
  | Some c => negb (String.eqb c "")
  | None => false
  end.

(** ** Statistics derivation *)

(** The tuple [(estimate, confidence interval, records processed, done)]. *)
Definition stats : Type := pynum * pynum * pynum * bool.

(** 1.96, as the binary64 literal the interpreter reads. *)
Definition z95 : float := 0x1.f5c28f5c28f5cp+0%float.

(** [if variance < 0: variance = 0]. *)
Definition clamp_variance (variance : float) : float :=
  if (variance <? 0)%float then 0%float else variance.

(** [calculate_statistics], a function of the global session it reads. The
    only expression of it that can raise is [avg ** 2]. *)
Definition calculate_statistics (qs : QueryState) : result stats :=
  if Z.eqb (running_count qs) 0 then
    Ok (PyFloat 0, PyFloat 0, PyFloat 0, false)
  else
    let is_done := is_done qs in
    let records_processed := running_count qs in
    let agg_func := aggregate_function qs in
    if agg_is agg_func "AVG" then
      let avg := (running_sum qs / float_of_Z (running_count qs))%float in
      result_bind (py_pow2 avg) (fun avg_sq =>
        let variance :=
          (running_sum_sq qs / float_of_Z (running_count qs) - avg_sq)%float in
        let variance := clamp_variance variance in
        let std_dev := PrimFloat.sqrt variance in
        let std_error :=
          (std_dev / PrimFloat.sqrt (float_of_Z (running_count qs)))%float in
        let confidence_interval := (z95 * std_error)%float in
        Ok (PyFloat avg, PyFloat confidence_interval,
            PyInt records_processed, is_done))
    else if agg_is agg_func "SUM" then
      Ok (PyFloat (running_sum qs), PyInt 0, PyInt records_processed, is_done)
    else if agg_is agg_func "COUNT" then
      Ok (PyInt (running_count qs), PyInt 0, PyInt records_processed, is_done)
    else
      Ok (PyFloat 0, PyFloat 0, PyFloat 0, is_done).

(** ** The world: the session and the remote source *)

(** What lines 116 to 118 ([requests.get], [raise_for_status], [json])
    yield for one request: a [RequestException] (connection, HTTP status or
    body decoding), or the decoded body. *)
Inductive Response : Type :=
| Failed
| Body (data : json).

(** The global [query_state], the remote source and the URLs requested so
    far. The source answers the [n]-th request of a run by [server n url]:
    nothing is assumed about it, and it may answer one URL differently at
    each call. *)
Record World : Type := {
  query_state : QueryState;
  server : nat -> string -> Response;
  requested : list string
}.

(** The world with another session. *)
Definition set_query_state (qs : QueryState) (w : World) : World :=
  {| query_state := qs; server := server w; requested := requested w |}.

(** ** The monad of the interpreter: state and exceptions *)

Definition Py (A : Type) : Type := World -> result A * World.

Definition ret {A} (a : A) : Py A := fun w => (Ok a, w).

Definition bind {A B} (m : Py A) (k : A -> Py B) : Py B :=
  fun w => match m w with
           | (Ok a, w') => k a w'
           | (Raise e, w') => (Raise e, w')
           end.

Declare Scope py_scope.
Delimit Scope py_scope with py.
Notation "x <- m ;; k" := (bind m (fun x => k))
  (at level 100, m at next level, right associativity) : py_scope.
Notation "m ;; k" := (bind m (fun _ => k))
  (at level 100, right associativity) : py_scope.
Local Open Scope py_scope.

(** An expression evaluated without touching the state. *)
Definition lift {A} (r : result A) : Py A := fun w => (r, w).

(** Reading the global session. *)
Definition read {A} (f : QueryState -> A) : Py A :=
  fun w => (Ok (f (query_state w)), w).

(** An assignment to the global session. *)
Definition update (f : QueryState -> QueryState) : Py unit :=
  fun w => (Ok tt, set_query_state (f (query_state w)) w).

(** [try: body except <caught>: handler]; the handler runs in the state the
    body left. *)
Definition try_except {A} (body : Py A) (caught : exn -> bool) (handler : Py A) : Py A :=
  fun w => match body w with
           | (Ok a, w') => (Ok a, w')
           | (Raise e, w') => if caught e then handler w' else (Raise e, w')
           end.

(** [for x in l: body x]. *)
Fixpoint for_each {A} (l : list A) (body : A -> Py unit) : Py unit :=
  match l with
  | [] => ret tt
  | x :: l' => body x ;; for_each l' body
  end.

(** The request itself: the URL is logged and the source answers. *)
Definition requests_get_json (url : string) : Py json :=
  fun w =>
    let w' := {| query_state := query_state w; server := server w;
                 requested := requested w ++ [url] |} in
    match server w (length (requested w)) url with
    | Failed => (Raise RequestException, w')
    | Body data => (Ok data, w')
    end.

(** The decimal text of an [int], as an f-string prints it. *)
Definition str_of_Z (z : Z) : string := NilZero.string_of_int (Z.to_int z).

(** The SODA query of lines 104 to 109 and the full URL. *)
Definition soda_query (col : string) (offset : Z) : string :=
  "?$select=" ++ col ++
  "&$where=" ++ col ++ " > 0" ++
  "&$limit=" ++ str_of_Z CHUNK_SIZE ++
  "&$offset=" ++ str_of_Z offset.

Definition api_url (col : string) (offset : Z) : string :=
  API_ENDPOINT ++ soda_query col offset.

(** ** The request and response models of the service *)

Module StartQueryRequest.
Record t : Type := { column_name : string; aggregate_function : string }.
End StartQueryRequest.

Module QueryResult.
Record t : Type := {
  average : pynum;
  confidence_interval : pynum;
  percent_complete : pynum;
  is_done : bool
}.
End QueryResult.

(** ** The fetch step *)

Section Engine.

(** [float(s)] of the interpreter on a string, [None] standing for its
    [ValueError]. The engine is verified for every such function. *)
Variable float_of_str : string -> option float.

(** [float(v)] on a decoded JSON value. *)
Definition py_float (v : json) : result float :=
  match v with
  | JFloat f => Ok f
  | JInt z => py_float_of_int z
  | JBool b => Ok (if b then 1%float else 0%float)
  | JStr s => match float_of_str s with
              | Some f => Ok f
              | None => Raise ValueError
              end
  | JNull | JList _ | JDict _ => Raise TypeError
  end.

(** [float(record[col])]. *)
Definition record_value (col : string) (record : json) : result float :=
  result_bind (py_getitem record col) py_float.

(** The handler of line 137: [except (KeyError, ValueError, TypeError)]. *)
Definition skipped (e : exn) : bool :=
  match e with
  | KeyError | ValueError | TypeError => true
  | OverflowError | RequestException => false
  end.

(** The body of the loop of lines 129 to 138, for one record. *)
Definition fold_record (col : string) (record : json) : Py unit :=
  try_except
    (value <- lift (record_value col record) ;;
     update (fun qs => set_running_sum (running_sum qs + value)%float qs) ;;
     is_avg <- read (fun qs => agg_is (aggregate_function qs) "AVG") ;;
     if is_avg : bool then
       value_sq <- lift (py_pow2 value) ;;
       update (fun qs => set_running_sum_sq (running_sum_sq qs + value_sq)%float qs)
     else ret tt)
    skipped
    (ret tt).

(** [fetch_next_chunk]. *)
Definition fetch_next_chunk : Py bool :=
  fun w =>
    let qs := query_state w in
    if is_done qs || negb (column_selected (column_to_query qs)) then
      ret false w
    else
      let col := default "" (column_to_query qs) in
      try_except
        (data <- requests_get_json (api_url col (current_offset qs)) ;;
         if negb (py_truthy data) then
           update (set_is_done true) ;;
           ret false
         else
           n <- lift (py_len data) ;;
           update (fun qs => set_running_count (running_count qs + n) qs) ;;
           in_sum_avg <- read (fun qs => agg_is (aggregate_function qs) "SUM"
                                         || agg_is (aggregate_function qs) "AVG") ;;
           (if in_sum_avg : bool
            then for_each (py_iter data) (fold_record col)
            else ret tt) ;;
           update (fun qs => set_current_offset (current_offset qs + CHUNK_SIZE) qs) ;;
           ret true)
        (exn_eqb RequestException)
        (update (set_is_done true) ;;
         ret false)
        w.

(** ** The service operations *)

(** The dictionary both operations build from the derived tuple. *)
Definition to_result (st : stats) : QueryResult.t :=
  let '(avg, ci, count, done) := st in
  {| QueryResult.average := avg;
     QueryResult.confidence_interval := ci;
     QueryResult.percent_complete := count;
     QueryResult.is_done := done |}.

(** The result derived from a session: the tuple of
    [calculate_statistics], unpacked into the dictionary. *)
Definition derived (qs : QueryState) : result QueryResult.t :=
  result_bind (calculate_statistics qs) (fun st => Ok (to_result st)).

(** [calculate_statistics()] called on the global session. *)
Definition derive : Py QueryResult.t :=
  fun w => (derived (query_state w), w).

Definition start_query (request : StartQueryRequest.t) : Py QueryResult.t :=
  update reset ;;
  update (set_column_to_query (Some (StartQueryRequest.column_name request))) ;;
  update (set_aggregate_function
            (Some (StartQueryRequest.aggregate_function request))) ;;
  fetch_next_chunk ;;
  derive.

Definition refine_query : Py QueryResult.t :=
  fetch_next_chunk ;;
  derive.

End Engine.

(** ** A sample runtime and a sample source, for running the engine *)

(** A decimal numeral without sign, point or exponent, on which Python's
    [float] and this function agree; any other string is refused here. *)
Fixpoint digits_value (s : string) (acc : Z) : option Z :=
  match s with
  | EmptyString => Some acc
  | String c s' =>
      let n := Z.of_N (Ascii.N_of_ascii c) in
      if Z.leb 48 n && Z.leb n 57 then digits_value s' (10 * acc + (n - 48))
      else None
  end.

(** The sample [float] of strings. *)
Definition float_of_numeral (s : string) : option float :=
  match s with
  | EmptyString => None
  | _ => float_of_Z <$> digits_value s 0
  end.

(** A source that answers the [n]-th request with the [n]-th response of a
    script, and fails once the script is over. *)
Definition scripted (script : list Response) : nat -> string -> Response :=
  fun n _ => nth n script Failed.

(** The world at process start, in front of a given source. *)
Definition boot (srv : nat -> string -> Response) : World :=
  {| query_state := QueryState_init; server := srv; requested := [] |}.

(** A record with one column. *)
Definition row (col : string) (v : json) : json := JDict {[ col := v ]}.

(** The body of a [start_query] request. *)
Definition request (col agg : string) : StartQueryRequest.t :=
  {| StartQueryRequest.column_name := col;
     StartQueryRequest.aggregate_function := agg |}.

(** ** Runs of the service *)

(** The calls a client can make, and a run of the service over a sequence
    of calls: the session and the log survive every call, whether it
    answered or raised. *)
Inductive call : Type :=
| Start (request : StartQueryRequest.t)
| Refine.

Definition serve (float_of_str : string -> option float) (c : call) : Py QueryResult.t :=
  match c with
  | Start request => start_query float_of_str request
  | Refine => refine_query float_of_str
  end.

Fixpoint serve_all (float_of_str : string -> option float)
    (calls : list call) (w : World) : World :=
  match calls with
  | [] => w
  | c :: calls' => serve_all float_of_str calls' (snd (serve float_of_str c w))
  end.

(** The call is a [refine_query]. *)
Definition is_refine (c : call) : bool :=
  match c with
  | Refine => true
  | Start _ => false
  end.

(** The session the specification starts a query from: the zero state with
    the column and the aggregate of the request. *)
Definition zero_session (request : StartQueryRequest.t) : QueryState :=
  {| current_offset := 0;
     running_sum := 0%float;
     running_count := 0;
     running_sum_sq := 0%float;
     is_done := false;
     column_to_query := Some (StartQueryRequest.column_name request);
     aggregate_function := Some (StartQueryRequest.aggregate_function request) |}.

(** [Start] as the specification words it: reset to the zero state, set
    column and aggregate, then exactly one [Refine]. *)
Definition start_spec (float_of_str : string -> option float)
    (request : StartQueryRequest.t) : Py QueryResult.t :=
  fun w => refine_query float_of_str (set_query_state (zero_session request) w).

(** The world after a request for [url] that left the session as [qs]. *)
Definition after_request (url : string) (qs : QueryState) (w : World) : World :=
  {| query_state := qs; server := server w; requested := requested w ++ [url] |}.

(** The URL the next fetch of a session asks for. *)
Definition next_url (qs : QueryState) : string :=
  api_url (default "" (column_to_query qs)) (current_offset qs).

(** What the source will answer to the next fetch. *)
Definition next_response (w : World) : Response :=
  server w (length (requested w)) (next_url (query_state w)).

(** The guard of line 94 lets the fetch through. *)
Definition fetch_enabled (qs : QueryState) : bool :=
  negb (is_done qs || negb (column_selected (column_to_query qs))).

(** The zero result of the default branch and of the empty session. *)
Definition zero_stats (done : bool) : stats :=
  (PyFloat 0, PyFloat 0, PyFloat 0, done).

(** ** Notions used by the statements *)

(** The world with the two accumulators of the loop replaced. *)
Definition with_sums (s q : float) (w : World) : World :=
  set_query_state
    (set_running_sum_sq q (set_running_sum s (query_state w))) w.

(** The loop of lines 128 to 138 over a page, guarded by the aggregate. *)
Definition page_loop (float_of_str : string -> option float)
    (col : string) (data : json) : Py unit :=
  fun w =>
    let agg := aggregate_function (query_state w) in
    if agg_is agg "SUM" || agg_is agg "AVG"
    then for_each (py_iter data) (fold_record float_of_str col) w
    else ret tt w.

(** A record whose value fails numeric parsing: [float(record[col])] raises
    one of the three exceptions the loop skips. *)
Definition parse_fails (float_of_str : string -> option float)
    (col : string) (record : json) : bool :=
  match record_value float_of_str col record with
  | Ok _ => false
  | Raise e => skipped e
  end.

(** The session after a page of [n] items was counted and folded into the
    sums [s] and [q]. *)
Definition folded (n : Z) (s q : float) (qs : QueryState) : QueryState :=
  set_running_sum_sq q
    (set_running_sum s (set_running_count (running_count qs + n) qs)).

(** The numbers of a derived tuple do not depend on the [is_done] flag. *)
Definition numbers (r : result stats) : result (pynum * pynum * pynum) :=
  result_bind r (fun st => Ok (fst st)).

(** *** Signs of binary64 values *)

(** The sign bit is clear, or the value is nan. *)
Definition sf_sign_clear (x : spec_float) : Prop :=
  match x with
  | S754_nan => True
  | S754_zero s | S754_infinity s | S754_finite s _ _ => s = false
  end.

(** The value is not below zero: a nan, a zero of either sign, or a value
    whose sign bit is clear. *)
Definition sf_not_negative (x : spec_float) : Prop :=
  match x with
  | S754_nan | S754_zero _ => True
  | S754_infinity s | S754_finite s _ _ => s = false
  end.

(** The value is a nan or carries the sign [sx]. *)
Definition sf_sign_is (sx : bool) (x : spec_float) : Prop :=
  match x with
  | S754_nan => True
  | S754_zero s | S754_infinity s | S754_finite s _ _ => s = sx
  end.

(** The value is a number (not a nan) that is not below zero. *)
Definition sf_real_not_negative (x : spec_float) : Prop :=
  match x with
  | S754_nan => False
  | S754_zero _ => True
  | S754_infinity s | S754_finite s _ _ => s = false
  end.

(** The value is finite, not zero, and positive. *)
Definition sf_positive_finite (x : spec_float) : Prop :=
  match x with
  | S754_finite s _ _ => s = false
  | _ => False
  end.

(** *** Concrete sessions and worlds *)

(** The session of a query whose first fetch failed: nothing counted, and
    marked done. *)
Definition failed_first_fetch : QueryState :=
  {| current_offset := 0; running_sum := 0%float; running_count := 0;
     running_sum_sq := 0%float; is_done := true;
     column_to_query := Some "price"; aggregate_function := Some "AVG" |}.

(** The session after one page holding the single value [NaN]. *)
Definition nan_session : QueryState :=
  {| current_offset := 10000; running_sum := nan; running_count := 1;
     running_sum_sq := nan; is_done := false;
     column_to_query := Some "price"; aggregate_function := Some "AVG" |}.

(** The session left by a page whose single value, 2^600, has no finite
    square, once a later fetch failed. *)
Definition huge_session : QueryState :=
  {| current_offset := 0; running_sum := 0x1p+600%float; running_count := 1;
     running_sum_sq := 0%float; is_done := true;
     column_to_query := Some "price"; aggregate_function := Some "AVG" |}.

(** Three equal observations. *)
Definition constant_session : QueryState :=
  {| current_offset := 10000; running_sum := 15%float; running_count := 3;
     running_sum_sq := 75%float; is_done := false;
     column_to_query := Some "price"; aggregate_function := Some "AVG" |}.

(** A session in the middle of a sum. *)
Definition sum_session : QueryState :=
  {| current_offset := 10000; running_sum := 60%float; running_count := 3;
     running_sum_sq := 0%float; is_done := false;
     column_to_query := Some "price"; aggregate_function := Some "SUM" |}.

(** The confidence component of a derived tuple is zero. *)
Definition exact (r : result stats) : bool :=
  match r with
  | Ok (_, ci, _, _) => pynum_is_zero ci
  | Raise _ => false
  end.

(** The world after a fetch that consumed a page of [n] items without
    folding any value: the request logged, the count and the offset moved. *)
Definition page_consumed (n : Z) (w : World) : World :=
  let qs := query_state w in
  after_request (next_url qs)
    (set_current_offset (current_offset qs + CHUNK_SIZE)
       (set_running_count (running_count qs + n) qs)) w.

(** A fetch that got a page, as the specification tells it: count [n]
    records, fold the values of [records] into the sums, advance the offset
    by the page size (unless a value overflowed on the way). *)
Definition fetched_page (float_of_str : string -> option float)
    (n : Z) (records : list json) (w : World) : result bool * World :=
  let qs := query_state w in
  let w1 := after_request (next_url qs)
              (set_running_count (running_count qs + n) qs) w in
  match page_loop float_of_str (default "" (column_to_query qs))
          (JList records) w1 with
  | (Ok _, w2) =>
      (Ok true,
       set_query_state
         (set_current_offset (current_offset (query_state w2) + CHUNK_SIZE)
            (query_state w2)) w2)
  | (Raise e, w2) => (Raise e, w2)
  end.

(** A world in front of a scripted source, before any request. *)
Definition world_of (qs : QueryState) (script : list Response) : World :=
  {| query_state := qs; server := scripted script; requested := [] |}.

(** A page of three records: one value that parses, one that does not, and
    one record without the column. *)
Definition mixed_page : list json :=
  [row "price" (JStr "10"); row "price" (JStr "n/a"); row "size" (JInt 1)].

(** A source that answers every request with the same two records. *)
Definition endless (n : nat) (url : string) : Response :=
  Body (JList [JNull; JNull]).

(** A fresh AVG query in front of one mixed page. *)
Definition avg_world : World :=
  world_of (zero_session (request "price" "AVG")) [Body (JList mixed_page)].

(** A sum under way, in front of a source that fails. *)
Definition failing_world : World := world_of sum_session [Failed].

(** The world at process start, in front of one mixed page. *)
Definition idle_world : World := boot (scripted [Body (JList mixed_page)]).

(** A finished session in front of a source that still has a page. *)
Definition done_world : World :=
  world_of failed_first_fetch [Body (JList mixed_page)].

(** A query started with a lowercase aggregate, in front of a source that
    never runs dry. *)
Definition lowercase_world : World :=
  {| query_state := zero_session (request "price" "avg");
     server := endless; requested := [] |}.

(** *** Outcomes of a fetch, invariants and whole runs *)

(** Every way a fetch can go. *)
Inductive fetch_outcome (w : World) : result bool * World -> Prop :=
| fetch_skipped :
    fetch_enabled (query_state w) = false ->
    fetch_outcome w (Ok false, w)
| fetch_exhausted :
    fetch_enabled (query_state w) = true ->
    (next_response w = Failed \/
     exists data, next_response w = Body data /\ py_truthy data = false) ->
    fetch_outcome w
      (Ok false,
       after_request (next_url (query_state w))
         (set_is_done true (query_state w)) w)
| fetch_unsized (data : json) :
    fetch_enabled (query_state w) = true ->
    next_response w = Body data ->
    py_truthy data = true ->
    py_len data = Raise TypeError ->
    fetch_outcome w
      (Raise TypeError,
       after_request (next_url (query_state w)) (query_state w) w)
| fetch_consumed (data : json) (n : Z) (s q : float) :
    fetch_enabled (query_state w) = true ->
    next_response w = Body data ->
    py_truthy data = true ->
    py_len data = Ok n ->
    0 < n ->
    (agg_is (aggregate_function (query_state w)) "AVG" = false ->
     q = running_sum_sq (query_state w)) ->
    (agg_is (aggregate_function (query_state w)) "SUM" = false ->
     agg_is (aggregate_function (query_state w)) "AVG" = false ->
     s = running_sum (query_state w)) ->
    fetch_outcome w
      (Ok true,
       after_request (next_url (query_state w))
         (set_current_offset (current_offset (query_state w) + CHUNK_SIZE)
            (folded n s q (query_state w))) w)
| fetch_overflowed (data : json) (n : Z) (s q : float) :
    fetch_enabled (query_state w) = true ->
    next_response w = Body data ->
    py_truthy data = true ->
    py_len data = Ok n ->
    0 < n ->
    agg_is (aggregate_function (query_state w)) "SUM"
      || agg_is (aggregate_function (query_state w)) "AVG" = true ->
    (agg_is (aggregate_function (query_state w)) "AVG" = false ->
     q = running_sum_sq (query_state w)) ->
    fetch_outcome w
      (Raise OverflowError,
       after_request (next_url (query_state w))
         (folded n s q (query_state w)) w).


(** What every session of a run satisfies, whatever the source answered:
    the offset is a multiple of the page size, for a number of pages that
    exceeds neither the records counted nor the requests sent; and the sums
    hold nothing that the aggregate does not ask to accumulate. *)
Record session_inv (w : World) : Prop := {
  inv_offset_nonneg : 0 <= current_offset (query_state w);
  inv_offset_pages : (CHUNK_SIZE | current_offset (query_state w));
  inv_offset_count :
    current_offset (query_state w) <= CHUNK_SIZE * running_count (query_state w);
  inv_offset_requests :
    current_offset (query_state w) <= CHUNK_SIZE * Z.of_nat (length (requested w));
  inv_count_nonneg : 0 <= running_count (query_state w);
  inv_empty_sums :
    running_count (query_state w) = 0 ->
    running_sum (query_state w) = 0%float /\
    running_sum_sq (query_state w) = 0%float;
  inv_sum_sq_avg_only :
    agg_is (aggregate_function (query_state w)) "AVG" = false ->
    running_sum_sq (query_state w) = 0%float;
  inv_sum_sum_avg_only :
    agg_is (aggregate_function (query_state w)) "SUM" = false ->
    agg_is (aggregate_function (query_state w)) "AVG" = false ->
    running_sum (query_state w) = 0%float;
  inv_column_aggregate :
    column_to_query (query_state w) = None <->
    aggregate_function (query_state w) = None
}.





(** The answers of a source that holds the given pages and nothing more:
    each page in turn, then the empty page. *)
Definition pages_script (pages : list (list json)) : list Response :=
  (map (fun p => Body (JList p)) pages ++ [Body (JList [])])%list.

(** The number of records of a sequence of pages. *)
Definition total_records (pages : list (list json)) : Z :=
  Z.of_nat (length (concat pages)).

(** The session with the cursor moved over [k] more pages that held [n]
    records. *)
Definition advanced (k n : Z) (qs : QueryState) : QueryState :=
  set_current_offset (current_offset qs + CHUNK_SIZE * k)
    (set_running_count (running_count qs + n) qs).


(** *** Further concrete worlds *)


(** A sum under way, in front of a source that has no more records. *)
Definition drained_world : World := world_of sum_session [Body (JList [])].



(** A body that is an object and not a list of records, as an API reports
    an error. *)
Definition error_body : json :=
  JDict {[ "error" := JBool true; "message" := JStr "timeout" ]}.

(** A fresh AVG query in front of that body. *)
Definition error_world : World :=
  world_of (zero_session (request "price" "AVG")) [Body error_body].

(** Two pages, of two records and of one. *)
Definition two_pages : list (list json) := [[JNull; JNull]; [JNull]].


(** ** Properties of the statistics derivation *)

Lemma calculate_statistics_no_count (qs : QueryState) :
  running_count qs = 0 -> calculate_statistics qs = Ok (zero_stats false).
Proof.
  intros H. unfold calculate_statistics. rewrite H. reflexivity.
Qed.


Lemma calculate_statistics_COUNT (qs : QueryState) :
  running_count qs <> 0 ->
  aggregate_function qs = Some "COUNT" ->
  calculate_statistics qs =
    Ok (PyInt (running_count qs), PyInt 0, PyInt (running_count qs), is_done qs).
Proof.
  intros Hn Ha. unfold calculate_statistics.
  destruct (Z.eqb_spec (running_count qs) 0) as [E|_]; [contradiction|].
  rewrite Ha. reflexivity.
Qed.

Lemma calculate_statistics_other (qs : QueryState) :
  running_count qs <> 0 ->
  agg_is (aggregate_function qs) "AVG" = false ->
  agg_is (aggregate_function qs) "SUM" = false ->
  agg_is (aggregate_function qs) "COUNT" = false ->
  calculate_statistics qs = Ok (zero_stats (is_done qs)).
Proof.
  intros Hn H1 H2 H3. unfold calculate_statistics.
  destruct (Z.eqb_spec (running_count qs) 0) as [E|_]; [contradiction|].
  rewrite H1, H2, H3. reflexivity.
Qed.

(** ** The paths of the fetch step *)

Section FetchPaths.

Variable float_of_str : string -> option float.

Local Abbreviation fetch := (fetch_next_chunk float_of_str).

Lemma world_eta (w : World) : set_query_state (query_state w) w = w.
Proof. destruct w; reflexivity. Qed.

Lemma with_sums_id (w : World) :
  with_sums (running_sum (query_state w)) (running_sum_sq (query_state w)) w = w.
Proof. destruct w as [[] ? ?]; reflexivity. Qed.

Lemma with_sums_twice (s q s' q' : float) (w : World) :
  with_sums s q (with_sums s' q' w) = with_sums s q w.
Proof. reflexivity. Qed.

Lemma fetch_disabled (w : World) :
  fetch_enabled (query_state w) = false -> fetch w = (Ok false, w).
Proof.
  unfold fetch_enabled, fetch_next_chunk. intros H.
  apply negb_false_iff in H. rewrite H. reflexivity.
Qed.

Lemma fetch_failed (w : World) :
  fetch_enabled (query_state w) = true ->
  next_response w = Failed ->
  fetch w = (Ok false,
             after_request (next_url (query_state w))
               (set_is_done true (query_state w)) w).
Proof.
  unfold fetch_enabled, next_response, next_url, fetch_next_chunk. intros H R.
  apply negb_true_iff in H. rewrite H.
  unfold try_except, bind, requests_get_json. rewrite R. reflexivity.
Qed.

Lemma fetch_empty (w : World) (data : json) :
  fetch_enabled (query_state w) = true ->
  next_response w = Body data ->
  py_truthy data = false ->
  fetch w = (Ok false,
             after_request (next_url (query_state w))
               (set_is_done true (query_state w)) w).
Proof.
  unfold fetch_enabled, next_response, next_url, fetch_next_chunk. intros H R T.
  apply negb_true_iff in H. rewrite H.
  unfold try_except, bind, requests_get_json. rewrite R, T. reflexivity.
Qed.

Lemma fetch_no_len (w : World) (data : json) :
  fetch_enabled (query_state w) = true ->
  next_response w = Body data ->
  py_truthy data = true ->
  py_len data = Raise TypeError ->
  fetch w = (Raise TypeError,
             after_request (next_url (query_state w)) (query_state w) w).
Proof.
  unfold fetch_enabled, next_response, next_url, fetch_next_chunk. intros H R T L.
  apply negb_true_iff in H. rewrite H.
  unfold try_except, bind, requests_get_json, lift. rewrite R, T, L. reflexivity.
Qed.

Lemma fetch_page (w : World) (data : json) (n : Z) :
  fetch_enabled (query_state w) = true ->
  next_response w = Body data ->
  py_truthy data = true ->
  py_len data = Ok n ->
  let qs := query_state w in
  let w1 := after_request (next_url qs)
              (set_running_count (running_count qs + n) qs) w in
  fetch w =
    match page_loop float_of_str (default "" (column_to_query qs)) data w1 with
    | (Ok _, w2) =>
        (Ok true,
         set_query_state
           (set_current_offset (current_offset (query_state w2) + CHUNK_SIZE)
              (query_state w2)) w2)
    | (Raise e, w2) =>
        if exn_eqb RequestException e
        then (Ok false, set_query_state (set_is_done true (query_state w2)) w2)
        else (Raise e, w2)
    end.
Proof.
  unfold fetch_enabled, next_response, next_url, fetch_next_chunk. intros H R T L.
  apply negb_true_iff in H. rewrite H.
  unfold try_except, bind, requests_get_json, lift, page_loop, read, update.
  rewrite R, T, L. cbn [negb query_state set_query_state after_request
    aggregate_function set_running_count].
  destruct (agg_is (aggregate_function (query_state w)) "SUM"
            || agg_is (aggregate_function (query_state w)) "AVG").
  - destruct (for_each _ _ _) as [[u|e] w2]; [reflexivity|].
    destruct (exn_eqb RequestException e); reflexivity.
  - reflexivity.
Qed.

(** *** The loop over the records *)

Lemma py_pow2_raises (x : float) (e : exn) :
  py_pow2 x = Raise e -> e = OverflowError.
Proof.
  unfold py_pow2. destruct (is_finite x && is_infinity (x * x)); congruence.
Qed.

Lemma py_float_of_int_raises (z : Z) (e : exn) :
  py_float_of_int z = Raise e -> e = OverflowError.
Proof.
  unfold py_float_of_int. destruct (is_infinity (float_of_Z z)); congruence.
Qed.

Lemma record_value_raises (col : string) (record : json) (e : exn) :
  record_value float_of_str col record = Raise e -> e <> RequestException.
Proof.
  unfold record_value, py_getitem.
  destruct record as [| | | | | |d]; cbn; try congruence.
  destruct (d !! col) as [v|]; cbn; [|congruence].
  destruct v as [|b|z|f|s|l|d']; cbn; try congruence.
  - intros H. apply py_float_of_int_raises in H. congruence.
  - destruct (float_of_str s); congruence.
Qed.

(** A record that fails to parse is skipped: no error, no change at all. *)
Lemma fold_record_skip (col : string) (record : json) (w : World) :
  parse_fails float_of_str col record = true ->
  fold_record float_of_str col record w = (Ok tt, w).
Proof.
  unfold parse_fails, fold_record, try_except, bind, lift.
  destruct (record_value float_of_str col record) as [v|e]; [discriminate|].
  intros ->. reflexivity.
Qed.

(** One turn of the loop touches the two sums and nothing else, and the
    only exception that leaves it is [OverflowError]. *)
Lemma fold_record_frame (col : string) (record : json) (w : World) :
  exists s q,
    snd (fold_record float_of_str col record w) = with_sums s q w /\
    (fst (fold_record float_of_str col record w) = Ok tt \/
     fst (fold_record float_of_str col record w) = Raise OverflowError).
Proof.
  unfold fold_record, try_except, bind, lift, read, update.
  destruct (record_value float_of_str col record) as [v|e] eqn:E.
  - cbn [query_state set_query_state aggregate_function set_running_sum].
    destruct (agg_is (aggregate_function (query_state w)) "AVG").
    + destruct (py_pow2 v) as [sq|e] eqn:P.
      * eexists _, _. split; [reflexivity|left; reflexivity].
      * apply py_pow2_raises in P. subst e. cbn.
        exists (running_sum (query_state w) + v)%float,
               (running_sum_sq (query_state w)).
        split; [|right; reflexivity].
        destruct w as [[] ? ?]; reflexivity.
    + exists (running_sum (query_state w) + v)%float,
             (running_sum_sq (query_state w)).
      split; [|left; reflexivity].
      destruct w as [[] ? ?]; reflexivity.
  - apply record_value_raises in E.
    exists (running_sum (query_state w)), (running_sum_sq (query_state w)).
    rewrite with_sums_id.
    destruct e; cbn; split; try reflexivity; try congruence; auto.
Qed.

Lemma for_each_frame (col : string) (l : list json) (w : World) :
  exists s q,
    snd (for_each l (fold_record float_of_str col) w) = with_sums s q w /\
    (fst (for_each l (fold_record float_of_str col) w) = Ok tt \/
     fst (for_each l (fold_record float_of_str col) w) = Raise OverflowError).
Proof.
  revert w. induction l as [|r l IH]; intros w.
  - exists (running_sum (query_state w)), (running_sum_sq (query_state w)).
    rewrite with_sums_id. cbn. split; [reflexivity|left; reflexivity].
  - cbn [for_each]. unfold bind.
    destruct (fold_record_frame col r w) as (s & q & Hw & Hr).
    destruct (fold_record float_of_str col r w) as [[u|e] w1]; cbn in Hw, Hr.
    + destruct (IH w1) as (s' & q' & Hw' & Hr').
      exists s', q'. rewrite Hw'. subst w1. split; [reflexivity|assumption].
    + exists s, q. cbn. split; assumption.
Qed.

(** The records that fail to parse can be dropped from the page: the loop
    ends with the same outcome in the same state. *)
Lemma for_each_kept (col : string) (l : list json) (w : World) :
  for_each l (fold_record float_of_str col) w =
  for_each (List.filter (fun r => negb (parse_fails float_of_str col r)) l)
    (fold_record float_of_str col) w.
Proof.
  revert w. induction l as [|r l IH]; intros w; [reflexivity|].
  cbn [for_each List.filter].
  destruct (parse_fails float_of_str col r) eqn:F; cbn [negb].
  - unfold bind at 1. rewrite (fold_record_skip _ _ _ F). apply IH.
  - cbn [for_each]. unfold bind.
    destruct (fold_record float_of_str col r w) as [[u|e] w1]; [apply IH|reflexivity].
Qed.

Lemma page_loop_frame (col : string) (data : json) (w : World) :
  exists s q,
    snd (page_loop float_of_str col data w) = with_sums s q w /\
    (fst (page_loop float_of_str col data w) = Ok tt \/
     fst (page_loop float_of_str col data w) = Raise OverflowError).
Proof.
  unfold page_loop.
  destruct (agg_is _ "SUM" || agg_is _ "AVG").
  - apply for_each_frame.
  - exists (running_sum (query_state w)), (running_sum_sq (query_state w)).
    rewrite with_sums_id. cbn. split; [reflexivity|left; reflexivity].
Qed.

Lemma py_len_raises (data : json) (e : exn) :
  py_len data = Raise e -> e = TypeError.
Proof. destruct data; cbn; congruence. Qed.

(** The two ends of a fetch that got a page: the loop went through and the
    offset advanced by the page size, or a value overflowed and the offset
    stayed. *)
Lemma fetch_page_ends (w : World) (data : json) (n : Z) :
  fetch_enabled (query_state w) = true ->
  next_response w = Body data ->
  py_truthy data = true ->
  py_len data = Ok n ->
  let qs := query_state w in
  exists s q,
    fetch w =
      (Ok true,
       after_request (next_url qs)
         (set_current_offset (current_offset qs + CHUNK_SIZE) (folded n s q qs)) w)
    \/
    fetch w = (Raise OverflowError, after_request (next_url qs) (folded n s q qs) w).
Proof.
  intros He Hr Ht Hl qs.
  rewrite (fetch_page w data n He Hr Ht Hl). fold qs.
  set (w1 := after_request _ _ w).
  destruct (page_loop_frame (default "" (column_to_query qs)) data w1)
    as (s & q & Hw & Ho).
  exists s, q.
  destruct (page_loop float_of_str _ data w1) as [[u|e] w2]; cbn in Hw, Ho; subst w2.
  - left. reflexivity.
  - right. destruct Ho as [Ho|Ho]; [discriminate|].
    injection Ho as ->. reflexivity.
Qed.

End FetchPaths.

(** ** The service operations in terms of the fetch step *)

Section Service.

Variable float_of_str : string -> option float.

Local Abbreviation fetch := (fetch_next_chunk float_of_str).
Local Abbreviation refine := (refine_query float_of_str).

Lemma refine_unfold (w : World) :
  refine w =
    match fetch w with
    | (Ok _, w') => (derived (query_state w'), w')
    | (Raise e, w') => (Raise e, w')
    end.
Proof. reflexivity. Qed.

Lemma refine_world (w : World) : snd (refine w) = snd (fetch w).
Proof.
  rewrite refine_unfold. destruct (fetch w) as [[b|e] w']; reflexivity.
Qed.

Lemma refine_disabled (w : World) :
  fetch_enabled (query_state w) = false ->
  refine w = (derived (query_state w), w).
Proof.
  intros H. rewrite refine_unfold, (fetch_disabled _ _ H). reflexivity.
Qed.

Lemma serve_all_app (calls calls' : list call) (w : World) :
  serve_all float_of_str (calls ++ calls') w =
  serve_all float_of_str calls' (serve_all float_of_str calls w).
Proof.
  revert w. induction calls as [|c calls IH]; intros w; [reflexivity|].
  cbn. apply IH.
Qed.

Lemma serve_all_disabled (calls : list call) (w : World) :
  forallb is_refine calls = true ->
  fetch_enabled (query_state w) = false ->
  serve_all float_of_str calls w = w.
Proof.
  induction calls as [|c calls IH]; intros Hc Hw; [reflexivity|].
  cbn in Hc. apply andb_prop in Hc as [Hr Hc].
  destruct c; [discriminate|]. cbn.
  rewrite (refine_disabled _ Hw). cbn. apply IH; assumption.
Qed.

Lemma done_disables (qs : QueryState) :
  is_done qs = true -> fetch_enabled qs = false.
Proof. unfold fetch_enabled. intros ->. reflexivity. Qed.

Lemma unselected_disables (qs : QueryState) :
  column_selected (column_to_query qs) = false -> fetch_enabled qs = false.
Proof.
  unfold fetch_enabled. intros ->. destruct (is_done qs); reflexivity.
Qed.

Lemma numbers_set_is_done (b : bool) (qs : QueryState) :
  numbers (calculate_statistics (set_is_done b qs)) =
  numbers (calculate_statistics qs).
Proof.
  unfold calculate_statistics.
  cbn [running_count set_is_done aggregate_function running_sum running_sum_sq].
  destruct (Z.eqb (running_count qs) 0); [reflexivity|].
  destruct (agg_is (aggregate_function qs) "AVG").
  - destruct (py_pow2 _); reflexivity.
  - destruct (agg_is (aggregate_function qs) "SUM"); [reflexivity|].
    destruct (agg_is (aggregate_function qs) "COUNT"); reflexivity.
Qed.

End Service.

(** ** Signs of binary64 results

    What the clamp of the variance buys: through [sqrt], the division by
    [sqrt(count)] and the product with 1.96, a value that is not below zero
    stays so. A nan is "not below zero" in this sense, and so is a zero of
    either sign. *)

(** Rounding keeps the sign it is given. *)
Lemma binary_round_aux_sign (sx : bool) (mx ex : Z) (lx : location) :
  sf_sign_is sx (binary_round_aux prec emax sx mx ex lx).
Proof.
  unfold binary_round_aux.
  destruct (shr_fexp prec emax mx ex lx) as [mrs' e'].
  destruct (shr_fexp prec emax _ e' loc_Exact) as [mrs'' e''].
  destruct (shr_m mrs''); cbn; [reflexivity| |exact I].
  destruct (Z.leb e'' (emax - prec)); reflexivity.
Qed.

Lemma binary_round_sign sx mx ex : sf_sign_is sx (binary_round prec emax sx mx ex).
Proof.
  unfold binary_round. destruct (shl_align _ _ _). apply binary_round_aux_sign.
Qed.

Lemma sign_clear_not_negative x : sf_sign_clear x -> sf_not_negative x.
Proof. destruct x; cbn; auto. Qed.

(** A square root is never below zero. *)
Lemma SFsqrt_not_negative x : sf_not_negative (SFsqrt prec emax x).
Proof.
  destruct x as [s|[|]| |[|] m e]; cbn; auto.
  destruct (SFsqrt_core_binary prec emax (Z.pos m) e) as [[mz ez] lz].
  apply sign_clear_not_negative. apply (binary_round_aux_sign false).
Qed.

Lemma SFsqrt_sign_clear x : sf_sign_clear x -> sf_sign_clear (SFsqrt prec emax x).
Proof.
  destruct x as [s|[|]| |[|] m e]; cbn; auto.
  intros _.
  destruct (SFsqrt_core_binary prec emax (Z.pos m) e) as [[mz ez] lz].
  apply (binary_round_aux_sign false).
Qed.

(** Dividing by a value whose sign bit is clear, and multiplying by a
    positive constant, keep a value from going below zero. *)
Lemma SFdiv_not_negative x y :
  sf_not_negative x -> sf_sign_clear y -> sf_not_negative (SFdiv prec emax x y).
Proof.
  destruct x as [sx|sx| |sx mx ex], y as [sy|sy| |sy my ey]; cbn; auto;
    try (intros; subst; reflexivity).
  intros -> ->.
  destruct (SFdiv_core_binary prec emax (Z.pos mx) ex (Z.pos my) ey) as [[mz ez] lz].
  apply sign_clear_not_negative. apply (binary_round_aux_sign false).
Qed.

Lemma SFmul_not_negative m e y :
  sf_not_negative y -> sf_not_negative (SFmul prec emax (S754_finite false m e) y).
Proof.
  destruct y as [sy|sy| |sy my ey]; cbn; auto.
  intros ->. apply sign_clear_not_negative. apply (binary_round_aux_sign false).
Qed.

Lemma Prim2SF_z95 : exists m e, Prim2SF z95 = S754_finite false m e.
Proof. eexists _, _. vm_compute. reflexivity. Qed.

(** The comparisons of Python read on the specification of the floats. *)
Lemma is_nan_Prim2SF x : is_nan x = true <-> Prim2SF x = S754_nan.
Proof.
  unfold is_nan. rewrite FloatAxioms.eqb_spec. unfold SFeqb.
  destruct (Prim2SF x) as [s|s| |s m e]; cbn.
  - split; discriminate.
  - destruct s; split; discriminate.
  - split; reflexivity.
  - rewrite Z.compare_refl, Pos.compare_cont_refl. destruct s; split; discriminate.
Qed.

Lemma not_negative_ltb x : sf_not_negative (Prim2SF x) <-> (x <? 0)%float = false.
Proof.
  rewrite FloatAxioms.ltb_spec. change (Prim2SF 0) with (S754_zero false). unfold SFltb.
  destruct (Prim2SF x) as [s|s| |s m e]; cbn.
  - tauto.
  - destruct s; split; congruence.
  - tauto.
  - destruct s; split; congruence.
Qed.

Lemma not_negative_leb x :
  sf_not_negative (Prim2SF x) -> (0 <=? x)%float = true \/ is_nan x = true.
Proof.
  rewrite is_nan_Prim2SF, FloatAxioms.leb_spec. change (Prim2SF 0) with (S754_zero false). unfold SFleb.
  destruct (Prim2SF x) as [s|s| |s m e]; cbn; auto; intros ->; auto.
Qed.

Lemma clamp_not_negative v : sf_not_negative (Prim2SF (clamp_variance v)).
Proof.
  unfold clamp_variance. destruct (v <? 0)%float eqn:E.
  - exact I.
  - apply not_negative_ltb. exact E.
Qed.

(** The float of a positive [int] has its sign bit clear. *)
Lemma SFldexp_sign sx x e : sf_sign_is sx x -> sf_sign_is sx (SFldexp prec emax x e).
Proof.
  destruct x as [s|s| |s m ex]; cbn; auto.
  intros ->. apply binary_round_sign.
Qed.

Lemma of_uint63_sign_clear n : sf_sign_clear (Prim2SF (of_uint63 n)).
Proof.
  rewrite of_uint63_spec.
  pose proof (Uint63.to_Z_bounded n) as [H _].
  destruct (Uint63.to_Z n) as [|p|p]; cbn; [reflexivity| |lia].
  apply (binary_round_sign false).
Qed.

Lemma SF2Prim_sign_clear x : sf_sign_clear x -> sf_sign_clear (Prim2SF (SF2Prim x)).
Proof.
  destruct x as [s|s| |s m e]; cbn [sf_sign_clear]; try (intros ->).
  - reflexivity.
  - reflexivity.
  - intros _. vm_compute. exact I.
  - change (SF2Prim (S754_finite false m e))
      with (FloatOps.Z.ldexp (of_uint63 (Uint63.of_Z (Zpos m))) e).
    rewrite Z_ldexp_spec. apply (SFldexp_sign false). apply of_uint63_sign_clear.
Qed.

Lemma float_of_Z_sign_clear z : 0 < z -> sf_sign_clear (Prim2SF (float_of_Z z)).
Proof.
  intros H. unfold float_of_Z. apply SF2Prim_sign_clear.
  destruct z as [|p|p]; try lia. cbn. apply (binary_round_sign false).
Qed.

(** Rounding a mantissa that is not negative never yields a nan. *)
Lemma shr_1_nonneg (mrs : shr_record) : 0 <= shr_m mrs -> 0 <= shr_m (shr_1 mrs).
Proof.
  destruct mrs as [m r s]. cbn [shr_m].
  destruct m as [|[p|p|]|p]; cbn; lia.
Qed.

Lemma iter_pos_shr_1_nonneg (p : positive) (mrs : shr_record) :
  0 <= shr_m mrs -> 0 <= shr_m (SpecFloat.iter_pos shr_1 p mrs).
Proof.
  revert mrs. induction p as [p IH|p IH|]; intros mrs H; cbn [SpecFloat.iter_pos].
  - apply IH, IH, shr_1_nonneg, H.
  - apply IH, IH, H.
  - apply shr_1_nonneg, H.
Qed.

Lemma shr_fexp_nonneg (m e : Z) (l : location) :
  0 <= m -> 0 <= shr_m (fst (shr_fexp prec emax m e l)).
Proof.
  intros H. unfold shr_fexp, shr.
  assert (H0 : 0 <= shr_m (shr_record_of_loc m l))
    by (destruct l as [|[| |]]; exact H).
  destruct (fexp prec emax (Zdigits2 m + e) - e) as [|p|p]; cbn [fst];
    try exact H0.
  apply iter_pos_shr_1_nonneg, H0.
Qed.

Lemma round_nearest_even_nonneg (m : Z) (l : location) :
  0 <= m -> 0 <= round_nearest_even m l.
Proof.
  intros H. destruct l as [|[| |]]; cbn; try lia.
  destruct (Z.even m); lia.
Qed.

Lemma binary_round_aux_not_nan (sx : bool) (mx ex : Z) (lx : location) :
  0 <= mx -> binary_round_aux prec emax sx mx ex lx <> S754_nan.
Proof.
  intros H. unfold binary_round_aux.
  pose proof (shr_fexp_nonneg mx ex lx H) as H1.
  destruct (shr_fexp prec emax mx ex lx) as [mrs' e']. cbn [fst] in H1.
  pose proof (shr_fexp_nonneg _ e' loc_Exact
                (round_nearest_even_nonneg _ (loc_of_shr_record mrs') H1)) as H2.
  destruct (shr_fexp prec emax _ e' loc_Exact) as [mrs'' e'']. cbn [fst] in H2.
  destruct (shr_m mrs'') as [|p|p]; [discriminate| |lia].
  destruct (Z.leb e'' (emax - prec)); discriminate.
Qed.

Lemma binary_round_aux_real (mx ex : Z) (lx : location) :
  0 <= mx -> sf_real_not_negative (binary_round_aux prec emax false mx ex lx).
Proof.
  intros H. pose proof (binary_round_aux_not_nan false mx ex lx H) as Hn.
  pose proof (binary_round_aux_sign false mx ex lx) as Hs.
  destruct (binary_round_aux prec emax false mx ex lx); cbn in *; auto.
Qed.

Lemma SFsqrt_real x : sf_real_not_negative x -> sf_real_not_negative (SFsqrt prec emax x).
Proof.
  destruct x as [s|[|]| |[|] m e]; cbn [sf_real_not_negative SFsqrt];
    try tauto; try discriminate.
  intros _. unfold SFsqrt_core_binary.
  match goal with |- context [Z.sqrtrem ?t] => set (m' := t) end.
  assert (H : 0 <= m').
  { unfold m'. destruct (_ - _) as [|p|p]; try lia. apply Z.shiftl_nonneg. lia. }
  pose proof (Z.sqrtrem_spec m' H) as Hq.
  destruct (Z.sqrtrem m') as [q r].
  apply binary_round_aux_real. lia.
Qed.

Lemma SFdiv_real x y :
  sf_real_not_negative x -> sf_positive_finite y ->
  sf_real_not_negative (SFdiv prec emax x y).
Proof.
  destruct x as [sx|sx| |sx mx ex], y as [sy|sy| |sy my ey];
    cbn [sf_real_not_negative sf_positive_finite SFdiv]; try tauto;
    try (intros; subst; cbn; auto; fail).
  intros -> ->. cbn [xorb].
  unfold SFdiv_core_binary.
  match goal with |- context [Z.div_eucl ?t _] => set (m' := t) end.
  assert (H : 0 <= m').
  { unfold m'. destruct (_ - _ - _) as [|p|p]; try lia. apply Z.shiftl_nonneg. lia. }
  pose proof (Z.div_pos m' (Z.pos my) H ltac:(lia)) as Hq.
  unfold Z.div in Hq.
  destruct (Z.div_eucl m' (Z.pos my)) as [q r]. cbn [fst] in Hq.
  apply binary_round_aux_real. exact Hq.
Qed.

Lemma SFmul_real m e y :
  sf_real_not_negative y ->
  sf_real_not_negative (SFmul prec emax (S754_finite false m e) y).
Proof.
  destruct y as [sy|sy| |sy my ey]; cbn [sf_real_not_negative SFmul]; try tauto;
    try (intros ->; cbn; auto; fail).
  intros ->. apply binary_round_aux_real. lia.
Qed.

Lemma positive_finite_ltb y :
  (0 <? y)%float = true -> (y <? infinity)%float = true ->
  sf_positive_finite (Prim2SF y).
Proof.
  rewrite !FloatAxioms.ltb_spec.
  change (Prim2SF 0) with (S754_zero false).
  change (Prim2SF infinity) with (S754_infinity false).
  unfold SFltb.
  destruct (Prim2SF y) as [s|s| |s m e]; cbn; try discriminate.
  - destruct s; discriminate.
  - destruct s; [discriminate|reflexivity].
Qed.

Lemma real_not_negative_leb x :
  sf_real_not_negative (Prim2SF x) -> (0 <=? x)%float = true.
Proof.
  rewrite FloatAxioms.leb_spec. change (Prim2SF 0) with (S754_zero false). unfold SFleb.
  destruct (Prim2SF x) as [s|s| |s m e]; cbn; try tauto; intros ->; reflexivity.
Qed.

Lemma clamp_real v :
  is_nan (clamp_variance v) = false ->
  sf_real_not_negative (Prim2SF (clamp_variance v)).
Proof.
  intros Hn. pose proof (clamp_not_negative v) as H.
  assert (Hx : Prim2SF (clamp_variance v) <> S754_nan).
  { intros E. apply is_nan_Prim2SF in E. congruence. }
  destruct (Prim2SF (clamp_variance v)); cbn in *; auto.
Qed.

(** With a variance that is a number and a positive finite [sqrt(count)],
    the half-width is a number, and it is not below zero. *)
Lemma half_width_real (variance n : float) :
  is_nan (clamp_variance variance) = false ->
  (0 <? PrimFloat.sqrt n)%float = true ->
  (PrimFloat.sqrt n <? infinity)%float = true ->
  (0 <=? z95 * (PrimFloat.sqrt (clamp_variance variance) / PrimFloat.sqrt n))%float = true.
Proof.
  intros Hv H0 Hi. apply real_not_negative_leb.
  rewrite FloatAxioms.mul_spec. destruct Prim2SF_z95 as (m & e & ->).
  apply SFmul_real. rewrite FloatAxioms.div_spec. apply SFdiv_real.
  - rewrite FloatAxioms.sqrt_spec. apply SFsqrt_real, clamp_real, Hv.
  - apply positive_finite_ltb; assumption.
Qed.

(** ** The statistics derivation: empty sessions, exact aggregates, AVG *)

(** C1 (the code departs from it). The specification asks that a session
    with [count == 0] derive [(0, 0, 0, session.done)]. The code returns the
    three zeros with the constant [False]: for every session with no record
    counted and [is_done] set, the derived flag is [false]; this is what a
    client sees when the first fetch of [start_query] fails. *)
Theorem empty_done_session_reports_not_done :
  (forall qs : QueryState,
     calculate_statistics (set_is_done true (set_running_count 0 qs)) =
       Ok (PyFloat 0, PyFloat 0, PyFloat 0, false)) /\
  (forall float_of_str : string -> option float,
     let out := start_query float_of_str (request "price" "AVG")
                  (boot (scripted [Failed])) in
     query_state (snd out) = failed_first_fetch /\
     fst out = Ok {| QueryResult.average := PyFloat 0;
                     QueryResult.confidence_interval := PyFloat 0;
                     QueryResult.percent_complete := PyFloat 0;
                     QueryResult.is_done := false |}).
Proof.
  split.
  - intros qs. reflexivity.
  - intros float_of_str. split; reflexivity.
Qed.

(** C8. With at least one record counted, SUM derives
    [(sum, 0, count, done)] and COUNT derives [(count, 0, count, done)];
    and for SUM and COUNT the confidence component is zero whatever the
    count, the empty session included. *)
Theorem exact_aggregates (qs : QueryState) :
  agg_is (aggregate_function qs) "SUM" || agg_is (aggregate_function qs) "COUNT" = true ->
  exact (calculate_statistics qs) = true /\
  (0 < running_count qs ->
   calculate_statistics qs =
     Ok (if agg_is (aggregate_function qs) "SUM"
         then PyFloat (running_sum qs)
         else PyInt (running_count qs),
         PyInt 0, PyInt (running_count qs), is_done qs)).
Proof.
  intros Ha. unfold calculate_statistics.
  destruct (Z.eqb_spec (running_count qs) 0) as [E|E].
  - split; [reflexivity|lia].
  - destruct (aggregate_function qs) as [a|]; [|discriminate].
    cbn [agg_is] in *.
    destruct (String.eqb a "SUM") eqn:Hs.
    + apply String.eqb_eq in Hs. subst a. split; reflexivity.
    + destruct (String.eqb a "COUNT") eqn:Hc; [|discriminate].
      apply String.eqb_eq in Hc. subst a. split; reflexivity.
Qed.

(** C8 at a sum of 60 over three records. *)
Lemma exact_aggregates_witness :
  exact (calculate_statistics sum_session) = true /\
  calculate_statistics sum_session = Ok (PyFloat 60, PyInt 0, PyInt 3, false).
Proof.
  destruct (exact_aggregates sum_session) as [H1 H2]; [reflexivity|].
  split; [exact H1|]. apply H2. reflexivity.
Defined.

(** C3 as the specification states it fails at two sessions the engine can
    reach. After a page holding the value [NaN] the half-width is nan, and
    [nan >= 0] is false. After a page holding 2^600 and a failed fetch,
    [avg ** 2] raises [OverflowError] and no result is derived at all. *)
Lemma avg_half_width_counterexample :
  (query_state
     (snd (start_query float_of_numeral (request "price" "AVG")
             (boot (scripted [Body (JList [row "price" (JFloat nan)])]))))
     = nan_session /\
   calculate_statistics nan_session =
     Ok (PyFloat nan, PyFloat nan, PyInt 1, false) /\
   (0 <=? nan)%float = false) /\
  (query_state
     (serve_all float_of_numeral [Start (request "price" "AVG"); Refine]
        (boot (scripted [Body (JList [row "price" (JFloat 0x1p+600)]); Failed])))
     = huge_session /\
   calculate_statistics huge_session = Raise OverflowError).
Proof. vm_compute. repeat split. Qed.

(** C3, amended. For a session with aggregate AVG and a positive count,
    let [mean = sum / count]. When [mean ** 2] overflows the derivation
    raises [OverflowError]. Otherwise the derived tuple is
    [(mean, 1.96 * sqrt(variance) / sqrt(count), count, done)] with
    [variance = sumOfSquares / count - mean ** 2] clamped at 0, and the
    half-width is never below zero: it is [>= 0] or it is nan. It is nan
    whenever the clamped variance is, and it is [>= 0] whenever the clamped
    variance is a number and [sqrt(count)] is a positive finite float. *)
Theorem avg_statistics (qs : QueryState) :
  aggregate_function qs = Some "AVG" ->
  0 < running_count qs ->
  let n := float_of_Z (running_count qs) in
  let mean := (running_sum qs / n)%float in
  match py_pow2 mean with
  | Raise _ => calculate_statistics qs = Raise OverflowError
  | Ok mean_sq =>
      let variance := clamp_variance (running_sum_sq qs / n - mean_sq)%float in
      let half_width :=
        (z95 * (PrimFloat.sqrt variance / PrimFloat.sqrt n))%float in
      calculate_statistics qs =
        Ok (PyFloat mean, PyFloat half_width,
            PyInt (running_count qs), is_done qs) /\
      ((0 <=? half_width)%float = true \/ is_nan half_width = true) /\
      (is_nan variance = true -> is_nan half_width = true) /\
      (is_nan variance = false ->
       (0 <? PrimFloat.sqrt n)%float = true ->
       (PrimFloat.sqrt n <? infinity)%float = true ->
       (0 <=? half_width)%float = true)
  end.
Proof.
  intros Ha Hn n mean.
  assert (Hc : calculate_statistics qs =
    result_bind (py_pow2 mean) (fun mean_sq =>
      Ok (PyFloat mean,
          PyFloat (z95 * (PrimFloat.sqrt
                            (clamp_variance (running_sum_sq qs / n - mean_sq))
                          / PrimFloat.sqrt n))%float,
          PyInt (running_count qs), is_done qs))).
  { unfold calculate_statistics.
    destruct (Z.eqb_spec (running_count qs) 0) as [E|_]; [lia|].
    rewrite Ha. reflexivity. }
  rewrite Hc. clear Hc.
  destruct (py_pow2 mean) as [mean_sq|e] eqn:P.
  - intros variance half_width. split; [reflexivity|]. split.
    + apply not_negative_leb. unfold half_width.
      rewrite FloatAxioms.mul_spec. destruct Prim2SF_z95 as (m & e & ->).
      apply SFmul_not_negative. rewrite FloatAxioms.div_spec.
      apply SFdiv_not_negative.
      * rewrite FloatAxioms.sqrt_spec. apply SFsqrt_not_negative.
      * rewrite FloatAxioms.sqrt_spec. apply SFsqrt_sign_clear.
        apply float_of_Z_sign_clear. exact Hn.
    + split.
      * rewrite !is_nan_Prim2SF. intros Hv. unfold half_width.
        rewrite FloatAxioms.mul_spec, FloatAxioms.div_spec,
          FloatAxioms.sqrt_spec, Hv. cbn.
        destruct (Prim2SF z95); reflexivity.
      * apply half_width_real.
  - apply py_pow2_raises in P. subst e. reflexivity.
Qed.

(** C3, amended, at three observations equal to 5: the mean is 5 and the
    half-width is 0. *)
Lemma avg_statistics_witness :
  calculate_statistics constant_session =
    Ok (PyFloat 5, PyFloat 0, PyInt 3, false) /\
  (0 <=? 0)%float = true.
Proof.
  pose proof (avg_statistics constant_session eq_refl eq_refl) as H.
  vm_compute in H. destruct H as (H & _ & _ & Hp).
  split; [exact H|]. apply Hp; reflexivity.
Defined.

(** ** The fetch step and the service operations *)

Section Controller.

Variable float_of_str : string -> option float.

Local Abbreviation fetch := (fetch_next_chunk float_of_str).
Local Abbreviation refine := (refine_query float_of_str).
Local Abbreviation start := (start_query float_of_str).
Local Abbreviation run := (serve_all float_of_str).

(** C4. When the request of a fetch fails, the fetch step returns [False]
    without raising, sets [is_done] and leaves offset, count, sum and sum of
    squares as they were; [refine_query] then returns the result derived
    from that session, whose numbers are those derived before the failure
    (and which raises only if the derivation already did). *)
Theorem failed_fetch_marks_done (w : World) :
  fetch_enabled (query_state w) = true ->
  next_response w = Failed ->
  let qs := query_state w in
  let w' := after_request (next_url qs) (set_is_done true qs) w in
  fetch w = (Ok false, w') /\
  is_done (query_state w') = true /\
  current_offset (query_state w') = current_offset qs /\
  running_count (query_state w') = running_count qs /\
  running_sum (query_state w') = running_sum qs /\
  running_sum_sq (query_state w') = running_sum_sq qs /\
  refine w = (derived (query_state w'), w') /\
  numbers (calculate_statistics (query_state w')) =
    numbers (calculate_statistics qs).
Proof.
  intros He Hr qs w'.
  pose proof (fetch_failed float_of_str w He Hr) as Hf. fold qs w' in Hf.
  repeat split; try assumption; try reflexivity.
  - rewrite refine_unfold, Hf. reflexivity.
  - apply numbers_set_is_done.
Qed.

(** C5. On a session that is done, or whose column was never selected,
    [refine_query] performs no fetch: the world, log of requests included,
    is left as it was, the result is the one derived from the unchanged
    session, and any number of further calls changes nothing either. *)
Theorem refine_without_query_is_a_noop (w : World) :
  is_done (query_state w) = true \/
  column_selected (column_to_query (query_state w)) = false ->
  fetch w = (Ok false, w) /\
  refine w = (derived (query_state w), w) /\
  forall n : nat,
    run (List.repeat Refine n) w = w /\
    refine (run (List.repeat Refine n) w) = refine w.
Proof.
  intros H.
  assert (Hd : fetch_enabled (query_state w) = false).
  { destruct H; [apply done_disables|apply unselected_disables]; assumption. }
  split; [apply fetch_disabled; assumption|].
  split; [apply refine_disabled; assumption|].
  intros n.
  assert (Hn : run (List.repeat Refine n) w = w).
  { apply serve_all_disabled; [|assumption].
    induction n; [reflexivity|assumption]. }
  rewrite Hn. split; reflexivity.
Qed.

(** C7. [start_query] is the specification's [Start]: from any world, it
    ends in the same world and returns the same result as one
    [refine_query] on the zero session carrying the requested column and
    aggregate; whatever session was in flight is discarded. *)
Theorem start_is_reset_then_refine (request : StartQueryRequest.t) (w : World) :
  start request w = start_spec float_of_str request w /\
  forall qs : QueryState,
    start request (set_query_state qs w) = start request w.
Proof.
  assert (H : forall v : World,
    start request v =
    refine (set_query_state (zero_session request) v)).
  { intros v. unfold start_query, refine_query, bind at 1 2 3, update.
    cbn [query_state set_query_state server requested reset
         set_column_to_query set_aggregate_function current_offset running_sum
         running_count running_sum_sq is_done column_to_query
         aggregate_function].
    reflexivity. }
  split.
  - unfold start_spec. apply H.
  - intros qs. rewrite !H. reflexivity.
Qed.

(** C9. [is_done] is monotonic under [refine_query]: once set, no fetch and
    no sequence of [refine_query] calls clears it. *)
Theorem done_is_monotonic (calls : list call) (w : World) :
  forallb is_refine calls = true ->
  is_done (query_state w) = true ->
  is_done (query_state (snd (fetch w))) = true /\
  is_done (query_state (run calls w)) = true.
Proof.
  intros Hc Hd. pose proof (done_disables _ Hd) as He. split.
  - rewrite (fetch_disabled _ _ He). exact Hd.
  - rewrite (serve_all_disabled _ _ _ Hc He). exact Hd.
Qed.

(** C6. Whatever the source answers, a fetch leaves the offset where it was
    or advances it by exactly 10000, and it advances it only when the
    request succeeded with a non-empty body and the fetch returned [True];
    so the offset never decreases along [refine_query] calls, and a
    [start_query] ends at offset 0 or 10000 of its fresh session. *)
Theorem offset_advances_by_page_size (w : World) :
  (current_offset (query_state (snd (fetch w))) = current_offset (query_state w) \/
   (current_offset (query_state (snd (fetch w))) =
      current_offset (query_state w) + 10000 /\
    fst (fetch w) = Ok true /\
    exists data, next_response w = Body data /\ py_truthy data = true)) /\
  snd (refine w) = snd (fetch w) /\
  (forall n : nat,
     current_offset (query_state w) <=
     current_offset (query_state (run (List.repeat Refine n) w))) /\
  (forall request : StartQueryRequest.t,
     current_offset (query_state (snd (start request w))) = 0 \/
     current_offset (query_state (snd (start request w))) = 10000).
Proof.
  assert (step : forall v : World,
    current_offset (query_state (snd (fetch v))) = current_offset (query_state v) \/
    (current_offset (query_state (snd (fetch v))) =
       current_offset (query_state v) + 10000 /\
     fst (fetch v) = Ok true /\
     exists data, next_response v = Body data /\ py_truthy data = true)).
  { intros v.
    destruct (fetch_enabled (query_state v)) eqn:He;
      [|rewrite (fetch_disabled _ _ He); left; reflexivity].
    destruct (next_response v) as [|data] eqn:Hr;
      [rewrite (fetch_failed _ _ He Hr); left; reflexivity|].
    destruct (py_truthy data) eqn:Ht;
      [|rewrite (fetch_empty _ _ _ He Hr Ht); left; reflexivity].
    destruct (py_len data) as [n|e] eqn:Hl.
    - destruct (fetch_page_ends float_of_str _ _ _ He Hr Ht Hl) as (s & q & [Hf|Hf]);
        rewrite Hf.
      + right. split; [reflexivity|]. split; [reflexivity|].
        exists data. split; [reflexivity|assumption].
      + left. reflexivity.
    - pose proof (py_len_raises _ _ Hl) as ->.
      rewrite (fetch_no_len _ _ _ He Hr Ht Hl). left. reflexivity. }
  split; [apply step|]. split; [apply refine_world|]. split.
  - intros n. revert w. induction n as [|n IH]; intros w; [cbn; lia|].
    cbn [List.repeat serve_all serve].
    specialize (IH (snd (refine w))). rewrite refine_world in IH |- *.
    destruct (step w) as [H|(H & _)]; lia.
  - intros request.
    change (snd (start request w))
      with (snd (refine (set_query_state (zero_session request) w))).
    rewrite refine_world.
    destruct (step (set_query_state (zero_session request) w)) as [H|(H & _)];
      rewrite H; [left|right]; reflexivity.
Qed.

Lemma enabled_not_done (qs : QueryState) :
  fetch_enabled qs = true -> is_done qs = false.
Proof. unfold fetch_enabled. destruct (is_done qs); [discriminate|reflexivity]. Qed.

Lemma nonempty_truthy (page : list json) :
  page <> [] -> py_truthy (JList page) = true.
Proof. destruct page; [contradiction|reflexivity]. Qed.

Lemma nonempty_length (page : list json) :
  page <> [] -> 0 < Z.of_nat (length page).
Proof. destruct page; [contradiction|cbn [length]; lia]. Qed.

(** One [refine_query] under an aggregate that is none of the three. *)
Lemma refine_unknown_aggregate (w : World) (page : list json) :
  fetch_enabled (query_state w) = true ->
  agg_is (aggregate_function (query_state w)) "SUM" = false ->
  agg_is (aggregate_function (query_state w)) "COUNT" = false ->
  agg_is (aggregate_function (query_state w)) "AVG" = false ->
  next_response w = Body (JList page) ->
  page <> [] ->
  refine w = (Ok (to_result (zero_stats false)), page_consumed (Z.of_nat (length page)) w).
Proof.
  intros He Hs Hc Ha Hr Hp.
  pose proof (nonempty_truthy _ Hp) as Ht.
  rewrite refine_unfold.
  rewrite (fetch_page float_of_str w (JList page) (Z.of_nat (length page)) He Hr Ht eq_refl).
  unfold page_loop. cbn [query_state after_request aggregate_function set_running_count].
  rewrite Hs, Ha. cbn [orb ret].
  unfold derived.
  set (qs' := query_state _).
  destruct (Z.eq_dec (running_count qs') 0) as [E|E].
  - rewrite (calculate_statistics_no_count _ E). reflexivity.
  - rewrite calculate_statistics_other; try assumption.
    unfold qs'. cbn. rewrite (enabled_not_done _ He). reflexivity.
Qed.

(** C10. Under an aggregate other than SUM, COUNT and AVG, with a column
    selected and the session not done, [refine_query] does fetch: on a
    non-empty page the request is logged, the count grows by the length of
    the page and the offset by 10000, while the result returned is
    [(0.0, 0.0, 0.0, is_done)] with [is_done] still false. The session it
    leaves meets the same conditions, so against a source that keeps
    answering non-empty pages every call consumes one more page and the
    count is never shown. *)
Theorem unknown_aggregate_consumes_pages (w : World) (page : list json) :
  fetch_enabled (query_state w) = true ->
  agg_is (aggregate_function (query_state w)) "SUM" = false ->
  agg_is (aggregate_function (query_state w)) "COUNT" = false ->
  agg_is (aggregate_function (query_state w)) "AVG" = false ->
  next_response w = Body (JList page) ->
  page <> [] ->
  let w' := snd (refine w) in
  fst (refine w) = Ok (to_result (zero_stats (is_done (query_state w')))) /\
  is_done (query_state w') = false /\
  requested w' = (requested w ++ [next_url (query_state w)])%list /\
  running_count (query_state w') =
    running_count (query_state w) + Z.of_nat (length page) /\
  running_count (query_state w) < running_count (query_state w') /\
  current_offset (query_state w') = current_offset (query_state w) + 10000 /\
  fetch_enabled (query_state w') = true /\
  aggregate_function (query_state w') = aggregate_function (query_state w) /\
  ((forall (n : nat) (url : string),
      exists p, server w n url = Body (JList p) /\ p <> []) ->
   forall k : nat,
     let wk := run (List.repeat Refine k) w in
     fst (refine wk) = Ok (to_result (zero_stats false)) /\
     current_offset (query_state wk) =
       current_offset (query_state w) + 10000 * Z.of_nat k /\
     running_count (query_state w) + Z.of_nat k <= running_count (query_state wk) /\
     length (requested wk) = (length (requested w) + k)%nat).
Proof.
  intros He Hs Hc Ha Hr Hp w'.
  pose proof (refine_unknown_aggregate w page He Hs Hc Ha Hr Hp) as H.
  pose proof (nonempty_length _ Hp) as Hl.
  pose proof (enabled_not_done _ He) as Hd.
  assert (Hw : w' = page_consumed (Z.of_nat (length page)) w)
    by (unfold w'; rewrite H; reflexivity).
  rewrite Hw, H.
  cbn [fst snd page_consumed after_request query_state requested
       set_current_offset set_running_count is_done running_count
       current_offset aggregate_function column_to_query fetch_enabled].
  rewrite Hd.
  repeat (split; [first [reflexivity | lia | exact He]|]).
  clear page Hr Hp H Hl Hw w'.
  intros Hsrv k.
  assert (inv : forall k v,
    server v = server w ->
    fetch_enabled (query_state v) = true ->
    aggregate_function (query_state v) = aggregate_function (query_state w) ->
    let vk := run (List.repeat Refine k) v in
    server vk = server w /\
    fetch_enabled (query_state vk) = true /\
    aggregate_function (query_state vk) = aggregate_function (query_state w) /\
    current_offset (query_state vk) =
      current_offset (query_state v) + 10000 * Z.of_nat k /\
    running_count (query_state v) + Z.of_nat k <= running_count (query_state vk) /\
    length (requested vk) = (length (requested v) + k)%nat).
  { clear k. induction k as [|k IH]; intros v Hv Hev Hav.
    - cbn. repeat split; try assumption; lia.
    - cbn [List.repeat serve_all serve].
      destruct (Hsrv (length (requested v)) (next_url (query_state v)))
        as (p & Hp & Hne).
      rewrite <- Hv in Hp.
      assert (Hs' := Hs). assert (Hc' := Hc). assert (Ha' := Ha).
      rewrite <- Hav in Hs', Hc', Ha'.
      rewrite (refine_unknown_aggregate v p Hev Hs' Hc' Ha' Hp Hne).
      cbn [snd].
      pose proof (nonempty_length _ Hne) as Hlp.
      specialize (IH (page_consumed (Z.of_nat (length p)) v)).
      cbn [page_consumed after_request query_state requested server
           set_current_offset set_running_count is_done running_count
           current_offset aggregate_function column_to_query fetch_enabled] in IH.
      destruct IH as (I1 & I2 & I3 & I4 & I5 & I6);
        [assumption|exact Hev|assumption|].
      rewrite length_app in I6. cbn [length] in I6.
      unfold CHUNK_SIZE in I4.
      repeat split; try assumption; lia. }
  destruct (inv k w eq_refl He eq_refl) as (I1 & I2 & I3 & I4 & I5 & I6).
  set (wk := run (List.repeat Refine k) w) in *.
  repeat split; try assumption.
  destruct (Hsrv (length (requested wk)) (next_url (query_state wk)))
    as (p & Hp & Hne).
  rewrite <- I1 in Hp. rewrite <- I3 in Hs, Hc, Ha.
  rewrite (refine_unknown_aggregate wk p I2 Hs Hc Ha Hp Hne).
  reflexivity.
Qed.

(** C2. A fetch that gets a non-empty page adds its full length to the
    count, whatever becomes of the values. The records whose value fails to
    parse (missing field, not a number, wrong type) are skipped without
    error and without any change, so the fetch ends exactly as if the loop
    had run over the other records only, the count still being that of the
    whole page. *)
Theorem page_counts_every_record (w : World) (page : list json) :
  fetch_enabled (query_state w) = true ->
  next_response w = Body (JList page) ->
  page <> [] ->
  let col := default "" (column_to_query (query_state w)) in
  let kept :=
    List.filter (fun r => negb (parse_fails float_of_str col r)) page in
  running_count (query_state (snd (fetch w))) =
    running_count (query_state w) + Z.of_nat (length page) /\
  fetch w = fetched_page float_of_str (Z.of_nat (length page)) kept w /\
  (forall (record : json) (v : World),
     parse_fails float_of_str col record = true ->
     fold_record float_of_str col record v = (Ok tt, v)).
Proof.
  intros He Hr Hp col kept.
  pose proof (nonempty_truthy _ Hp) as Ht.
  assert (Hl : py_len (JList page) = Ok (Z.of_nat (length page))) by reflexivity.
  split; [|split].
  - destruct (fetch_page_ends float_of_str w _ _ He Hr Ht Hl) as (s & q & [Hf|Hf]);
      rewrite Hf; reflexivity.
  - rewrite (fetch_page float_of_str w _ _ He Hr Ht Hl).
    unfold fetched_page. fold col.
    set (w1 := after_request _ _ w).
    assert (Hk : page_loop float_of_str col (JList page) w1 =
                 page_loop float_of_str col (JList kept) w1).
    { unfold page_loop. destruct (_ || _); [|reflexivity].
      cbn [py_iter]. apply for_each_kept. }
    rewrite Hk.
    destruct (page_loop_frame float_of_str col (JList kept) w1)
      as (s & q & _ & Ho).
    destruct (page_loop float_of_str col (JList kept) w1) as [[u|e] w2];
      [reflexivity|].
    cbn in Ho. destruct Ho as [Ho|Ho]; [discriminate|].
    injection Ho as ->. reflexivity.
  - intros record v Hf. apply fold_record_skip. exact Hf.
Qed.

End Controller.

(** ** The scenarios of the specification, run on the model *)

(** Scenario A: a sum over one page of 10, 20 and 30. *)
Example scenario_sum :
  fst (start_query float_of_numeral (request "price" "SUM")
         (boot (scripted [Body (JList [row "price" (JStr "10");
                                       row "price" (JStr "20");
                                       row "price" (JStr "30")])]))) =
  Ok {| QueryResult.average := PyFloat 60;
        QueryResult.confidence_interval := PyInt 0;
        QueryResult.percent_complete := PyInt 3;
        QueryResult.is_done := false |}.
Proof. vm_compute. reflexivity. Qed.

(** Scenario B: the average of 2, 4, 6 and 8 is 5, with a half-width of
    1.96 * sqrt(5) / 2, about 2.19. *)
Example scenario_avg :
  fst (start_query float_of_numeral (request "price" "AVG")
         (boot (scripted [Body (JList [row "price" (JInt 2);
                                       row "price" (JInt 4);
                                       row "price" (JInt 6);
                                       row "price" (JInt 8)])]))) =
  Ok {| QueryResult.average := PyFloat 5;
        QueryResult.confidence_interval := PyFloat 2.1913466179497938;
        QueryResult.percent_complete := PyInt 4;
        QueryResult.is_done := false |}.
Proof. vm_compute. reflexivity. Qed.

(** Scenario C: a start and two refinements against a source with two
    pages, then nothing: the last result is done and counts both pages. *)
Example scenario_exhaustion :
  let w := serve_all float_of_numeral
             [Start (request "price" "COUNT"); Refine]
             (boot (scripted [Body (JList [JNull; JNull; JNull]);
                              Body (JList [JNull; JNull]);
                              Body (JList [])])) in
  fst (refine_query float_of_numeral w) =
  Ok {| QueryResult.average := PyInt 5;
        QueryResult.confidence_interval := PyInt 0;
        QueryResult.percent_complete := PyInt 5;
        QueryResult.is_done := true |}.
Proof. vm_compute. reflexivity. Qed.

(** A [start_query] clears the flag of a finished session: the reset is the
    one way out of exhaustion. *)
Example start_clears_done :
  is_done (query_state done_world) = true /\
  is_done (query_state
             (snd (start_query float_of_numeral (request "price" "SUM")
                     done_world))) = false.
Proof. vm_compute. split; reflexivity. Qed.

(** ** The properties at concrete worlds *)

(** C2 at a page of three records of which one parses: the count is 3, the
    sums hold the value 10 alone. *)
Lemma page_counts_every_record_witness :
  let qs' := query_state (snd (fetch_next_chunk float_of_numeral avg_world)) in
  running_count qs' = 3 /\ running_sum qs' = 10%float /\
  running_sum_sq qs' = 100%float.
Proof.
  pose proof (page_counts_every_record float_of_numeral avg_world mixed_page
                eq_refl eq_refl ltac:(discriminate)) as (Hc & Hf & _).
  cbv zeta. split; [exact Hc|]. rewrite Hf. vm_compute. split; reflexivity.
Defined.

(** C4 at a sum under way whose next fetch fails: the result keeps the sum
    and the count, and is done. *)
Lemma failed_fetch_marks_done_witness :
  fetch_next_chunk float_of_numeral failing_world =
    (Ok false,
     after_request (next_url sum_session) (set_is_done true sum_session)
       failing_world) /\
  fst (refine_query float_of_numeral failing_world) =
    Ok (to_result (PyFloat 60, PyInt 0, PyInt 3, true)).
Proof.
  pose proof (failed_fetch_marks_done float_of_numeral failing_world
                eq_refl eq_refl) as (Hf & _ & _ & _ & _ & _ & Hr & _).
  split; [exact Hf|]. rewrite Hr. vm_compute. reflexivity.
Defined.

(** C5 at process start: a [refine_query] before any [start_query] asks
    the source nothing. *)
Lemma refine_without_query_is_a_noop_witness :
  refine_query float_of_numeral idle_world =
    (Ok (to_result (zero_stats false)), idle_world).
Proof.
  pose proof (refine_without_query_is_a_noop float_of_numeral idle_world
                (or_intror eq_refl)) as (_ & Hr & _).
  rewrite Hr. reflexivity.
Defined.

(** C9 at a finished session whose source still has a page. *)
Lemma done_is_monotonic_witness :
  is_done (query_state (serve_all float_of_numeral [Refine; Refine] done_world))
    = true.
Proof.
  apply (done_is_monotonic float_of_numeral [Refine; Refine] done_world
           eq_refl eq_refl).
Defined.

Lemma two_records_nonempty : [JNull; JNull] <> [].
Proof. discriminate. Qed.

(** C10 at a query started with the aggregate [avg]: three calls move the
    offset to 30000 and every result is zero. *)
Lemma unknown_aggregate_consumes_pages_witness :
  let w3 := serve_all float_of_numeral (List.repeat Refine 3) lowercase_world in
  fst (refine_query float_of_numeral lowercase_world) =
    Ok (to_result (zero_stats false)) /\
  running_count
    (query_state (snd (refine_query float_of_numeral lowercase_world))) = 2 /\
  fst (refine_query float_of_numeral w3) = Ok (to_result (zero_stats false)) /\
  current_offset (query_state w3) = 30000.
Proof.
  pose proof (unknown_aggregate_consumes_pages float_of_numeral lowercase_world
                [JNull; JNull] eq_refl eq_refl eq_refl eq_refl eq_refl
                two_records_nonempty) as H.
  cbv zeta in H. destruct H as (H1 & H2 & _ & H4 & _ & _ & _ & _ & Hk).
  cbv zeta. rewrite H2 in H1. split; [exact H1|]. split; [exact H4|].
  destruct (Hk (fun n url => ex_intro _ [JNull; JNull]
                  (conj eq_refl two_records_nonempty)) 3%nat) as (K1 & K2 & _).
  split; [exact K1|exact K2].
Defined.

(** ** Sessions along runs of the service *)

Section Sessions.
Variable float_of_str : string -> option float.
Local Abbreviation fetch := (fetch_next_chunk float_of_str).
Local Abbreviation refine := (refine_query float_of_str).
Local Abbreviation start := (start_query float_of_str).
Local Abbreviation run := (serve_all float_of_str).

Lemma truthy_len_positive (data : json) (n : Z) :
  py_truthy data = true -> py_len data = Ok n -> 0 < n.
Proof.
  destruct data as [| | | |s|l|d]; cbn; try discriminate.
  - destruct s; [discriminate|]. intros _ [= <-]. cbn [String.length]. lia.
  - destruct l; [discriminate|]. intros _ [= <-]. cbn [length]. lia.
  - intros Hd [= <-]. apply negb_true_iff, bool_decide_eq_false in Hd.
    apply map_size_non_empty_iff in Hd. lia.
Qed.

(** One turn of the loop leaves the sum of squares alone unless the
    aggregate is AVG. *)
Lemma fold_record_sum_sq (col : string) (record : json) (w : World) :
  agg_is (aggregate_function (query_state w)) "AVG" = false ->
  running_sum_sq (query_state (snd (fold_record float_of_str col record w))) =
  running_sum_sq (query_state w).
Proof.
  intros Ha. unfold fold_record, try_except, bind, lift, read, update.
  destruct (record_value float_of_str col record) as [v|e].
  - cbn [query_state set_query_state aggregate_function set_running_sum].
    rewrite Ha. reflexivity.
  - destruct (skipped e); reflexivity.
Qed.

Lemma for_each_sum_sq (col : string) (l : list json) (w : World) :
  agg_is (aggregate_function (query_state w)) "AVG" = false ->
  running_sum_sq (query_state (snd (for_each l (fold_record float_of_str col) w))) =
  running_sum_sq (query_state w).
Proof.
  revert w. induction l as [|r l IH]; intros w Ha; [reflexivity|].
  cbn [for_each]. unfold bind.
  pose proof (fold_record_sum_sq col r w Ha) as H1.
  destruct (fold_record_frame float_of_str col r w) as (s & q & Hw & _).
  destruct (fold_record float_of_str col r w) as [[u|e] w1]; cbn [snd] in *.
  - rewrite IH; [exact H1|]. subst w1. exact Ha.
  - exact H1.
Qed.

(** What the loop over a page may do to the two sums, by aggregate. *)
Lemma page_loop_sums (col : string) (data : json) (w : World) :
  let qs := query_state w in
  exists s q,
    snd (page_loop float_of_str col data w) = with_sums s q w /\
    (fst (page_loop float_of_str col data w) = Ok tt \/
     fst (page_loop float_of_str col data w) = Raise OverflowError) /\
    (agg_is (aggregate_function qs) "AVG" = false -> q = running_sum_sq qs) /\
    (agg_is (aggregate_function qs) "SUM" = false ->
     agg_is (aggregate_function qs) "AVG" = false -> s = running_sum qs).
Proof.
  intros qs.
  destruct (page_loop_frame float_of_str col data w) as (s & q & Hw & Ho).
  exists s, q. split; [exact Hw|]. split; [exact Ho|]. split.
  - intros Ha.
    assert (H : running_sum_sq (query_state (snd (page_loop float_of_str col data w)))
                = running_sum_sq qs).
    { unfold page_loop. destruct (_ || _); [|reflexivity].
      apply for_each_sum_sq, Ha. }
    rewrite Hw in H. exact H.
  - intros Hs Ha.
    assert (H : running_sum (query_state (snd (page_loop float_of_str col data w)))
                = running_sum qs).
    { unfold page_loop. fold qs. rewrite Hs, Ha. reflexivity. }
    rewrite Hw in H. exact H.
Qed.

Lemma fetch_cases (w : World) : fetch_outcome w (fetch w).
Proof.
  destruct (fetch_enabled (query_state w)) eqn:He;
    [|rewrite (fetch_disabled _ _ He); apply fetch_skipped; exact He].
  destruct (next_response w) as [|data] eqn:Hr.
  { rewrite (fetch_failed _ _ He Hr). apply fetch_exhausted; [exact He|left; exact Hr]. }
  destruct (py_truthy data) eqn:Ht.
  2:{ rewrite (fetch_empty _ _ _ He Hr Ht). apply fetch_exhausted; [exact He|].
      right. exists data. split; [exact Hr|exact Ht]. }
  destruct (py_len data) as [n|e] eqn:Hl.
  2:{ pose proof (py_len_raises _ _ Hl) as ->.
      rewrite (fetch_no_len _ _ _ He Hr Ht Hl).
      apply (fetch_unsized w data); assumption. }
  pose proof (truthy_len_positive _ _ Ht Hl) as Hn.
  rewrite (fetch_page float_of_str w data n He Hr Ht Hl).
  set (qs := query_state w).
  set (w1 := after_request _ _ w).
  destruct (page_loop_sums (default "" (column_to_query qs)) data w1)
    as (s & q & Hw & Ho & Hq & Hs).
  cbn [w1 after_request query_state aggregate_function set_running_count
       running_sum running_sum_sq] in Hq, Hs.
  assert (Hagg : fst (page_loop float_of_str (default "" (column_to_query qs)) data w1)
                   = Raise OverflowError ->
                 agg_is (aggregate_function qs) "SUM"
                   || agg_is (aggregate_function qs) "AVG" = true).
  { unfold page_loop.
    cbn [w1 after_request query_state aggregate_function set_running_count].
    fold qs. destruct (_ || _); [reflexivity|discriminate]. }
  destruct (page_loop float_of_str _ data w1) as [[u|e] w2];
    cbn [fst snd] in Hw, Ho, Hagg; subst w2.
  - apply (fetch_consumed w data n s q); assumption.
  - destruct Ho as [Ho|Ho]; [discriminate|]. injection Ho as ->.
    apply (fetch_overflowed w data n s q); try assumption.
    apply Hagg. reflexivity.
Qed.


(** X1. What the value returned by [fetch_next_chunk] tells of the session
    it leaves. [True]: the offset moved by 10000, the count grew, the
    session is not done and the URL of the window was requested. [False]:
    offset, count and both sums are as before, and the next fetch will be
    refused by the guard. *)
Theorem fetch_return_value (w : World) :
  let qs := query_state w in
  let qs' := query_state (snd (fetch w)) in
  match fst (fetch w) with
  | Ok true =>
      current_offset qs' = current_offset qs + 10000 /\
      running_count qs < running_count qs' /\
      is_done qs' = false /\
      requested (snd (fetch w)) = (requested w ++ [next_url qs])%list
  | Ok false =>
      current_offset qs' = current_offset qs /\
      running_count qs' = running_count qs /\
      running_sum qs' = running_sum qs /\
      running_sum_sq qs' = running_sum_sq qs /\
      fetch_enabled qs' = false
  | Raise _ => True
  end.
Proof.
  intros qs qs'. subst qs qs'.
  destruct (fetch_cases w) as [He|He Hr|data He Hr Ht Hl|data n s q He Hr Ht Hl Hn Hq Hs
                              |data n s q He Hr Ht Hl Hn Ha Hq]; cbn [fst snd].
  - repeat split; try reflexivity. exact He.
  - repeat split; reflexivity.
  - exact I.
  - cbn. rewrite (enabled_not_done _ He). repeat split; try reflexivity. lia.
  - exact I.
Qed.


(** X3. Along any sequence of calls, each call sends at most one request:
    the log of requests only grows, by no more URLs than calls made. *)
Theorem one_request_per_call (calls : list call) (w : World) :
  server (run calls w) = server w /\
  exists urls : list string,
    requested (run calls w) = (requested w ++ urls)%list /\
    (length urls <= length calls)%nat.
Proof.
  assert (step : forall (c : call) (v : World),
    server (snd (serve float_of_str c v)) = server v /\
    (requested (snd (serve float_of_str c v)) = requested v \/
     exists url, requested (snd (serve float_of_str c v)) = (requested v ++ [url])%list)).
  { assert (rstep : forall v : World,
      server (snd (refine v)) = server v /\
      (requested (snd (refine v)) = requested v \/
       exists url, requested (snd (refine v)) = (requested v ++ [url])%list)).
    { intros v. rewrite refine_world.
      destruct (fetch_cases v); cbn [snd after_request server requested];
        (split; [reflexivity|]); try (left; reflexivity); right; eexists; reflexivity. }
    intros [request|] v; cbn [serve]; [|apply rstep].
    change (snd (start request v))
      with (snd (refine (set_query_state (zero_session request) v))).
    apply (rstep (set_query_state (zero_session request) v)). }
  revert w. induction calls as [|c calls IH]; intros w.
  - split; [reflexivity|]. exists []. rewrite app_nil_r. split; [reflexivity|cbn; lia].
  - cbn [serve_all].
    destruct (step c w) as (Hs & Hr).
    destruct (IH (snd (serve float_of_str c w))) as (Hs' & urls & Hu & Hl).
    split; [rewrite Hs', Hs; reflexivity|].
    destruct Hr as [Hr|(url & Hr)]; rewrite Hr in Hu.
    + exists urls. split; [exact Hu|cbn [length]; lia].
    + exists (url :: urls). rewrite <- app_assoc in Hu. split; [exact Hu|cbn [length]; lia].
Qed.

(** X4. A failed request or an empty body ends the query: after it, any
    number of [refine_query] calls leaves the world that the first one
    left, which differs from the one before by the request logged and the
    [is_done] flag alone. *)
Theorem exhaustion_is_terminal (w : World) (n : nat) :
  fetch_enabled (query_state w) = true ->
  (next_response w = Failed \/
   exists data, next_response w = Body data /\ py_truthy data = false) ->
  run (List.repeat Refine (S n)) w =
    after_request (next_url (query_state w)) (set_is_done true (query_state w)) w.
Proof.
  intros He Hr. cbn [List.repeat serve_all serve].
  assert (Hf : fetch w =
    (Ok false,
     after_request (next_url (query_state w)) (set_is_done true (query_state w)) w)).
  { destruct Hr as [Hr|(data & Hr & Ht)];
      [apply fetch_failed|apply (fetch_empty _ _ data)]; assumption. }
  rewrite refine_world, Hf. cbn [snd].
  apply serve_all_disabled; [|reflexivity].
  clear. induction n; [reflexivity|assumption].
Qed.

(** *** The invariant of the session *)

Ltac session_fields :=
  cbn [query_state server requested after_request set_query_state boot
       zero_session QueryState_init
       set_is_done set_current_offset set_running_count set_running_sum
       set_running_sum_sq folded current_offset running_sum running_count
       running_sum_sq is_done column_to_query aggregate_function] in *;
  unfold CHUNK_SIZE in *.

Lemma session_inv_fetch (w : World) :
  session_inv w -> session_inv (snd (fetch w)).
Proof.
  intros [I1 I2 I3 I4 I5 I6 I7 I8 I9].
  destruct (fetch_cases w) as [He|He Hr|data He Hr Ht Hl|data n s q He Hr Ht Hl Hn Hq Hs
                              |data n s q He Hr Ht Hl Hn Ha Hq]; cbn [snd].
  - constructor; assumption.
  - constructor; session_fields; try assumption.
    rewrite length_app. cbn [length]. lia.
  - constructor; session_fields; try assumption.
    rewrite length_app. cbn [length]. lia.
  - constructor; session_fields; try assumption; try lia.
    + apply Z.divide_add_r; [assumption|apply Z.divide_refl].
    + rewrite length_app. cbn [length]. lia.
    + intros Ha. rewrite (Hq Ha). apply I7, Ha.
    + intros Hs' Ha. rewrite (Hs Hs' Ha). apply I8; assumption.
  - constructor; session_fields; try assumption; try lia.
    + rewrite length_app. cbn [length]. lia.
    + intros Ha'. rewrite (Hq Ha'). apply I7, Ha'.
    + intros Hs' Ha'. rewrite Hs', Ha' in Ha. discriminate.
Qed.

Lemma session_inv_serve (c : call) (w : World) :
  session_inv w -> session_inv (snd (serve float_of_str c w)).
Proof.
  intros I. destruct c as [request|]; cbn [serve].
  - change (snd (start request w))
      with (snd (refine (set_query_state (zero_session request) w))).
    rewrite refine_world. apply session_inv_fetch.
    constructor; session_fields; try lia; try (intros; reflexivity);
      try (split; reflexivity).
    + apply Z.divide_0_r.
    + split; discriminate.
  - rewrite refine_world. apply session_inv_fetch, I.
Qed.

Lemma session_inv_run (calls : list call) (w : World) :
  session_inv w -> session_inv (run calls w).
Proof.
  revert w. induction calls as [|c calls IH]; intros w I; [exact I|].
  cbn [serve_all]. apply IH, session_inv_serve, I.
Qed.

Lemma session_inv_boot (srv : nat -> string -> Response) : session_inv (boot srv).
Proof.
  constructor; session_fields; try lia; try (intros; reflexivity);
    try (split; reflexivity).
  apply Z.divide_0_r.
Qed.

(** X5. The pagination cursor along any run of the service from process
    start, whatever the source answers: the offset is 10000 times a number
    of pages that exceeds neither the number of records counted nor the
    number of requests sent. *)
Theorem offset_counts_pages (srv : nat -> string -> Response) (calls : list call) :
  let w := run calls (boot srv) in
  let qs := query_state w in
  exists pages : Z,
    current_offset qs = 10000 * pages /\
    0 <= pages /\
    pages <= running_count qs /\
    pages <= Z.of_nat (length (requested w)).
Proof.
  intros w qs.
  destruct (session_inv_run calls (boot srv) (session_inv_boot srv))
    as [I1 [k I2] I3 I4 I5 _ _ _ _].
  fold w in I1, I2, I3, I4, I5. fold qs in I1, I2, I3, I4, I5.
  unfold CHUNK_SIZE in *.
  exists k. repeat split; lia.
Qed.

(** X6. The accumulators along any run of the service from process start,
    whatever the source answers: the count is never negative; while it is
    zero both sums are zero and the offset is zero; the sum of squares is
    zero unless the aggregate is AVG, and the sum is zero unless it is SUM
    or AVG; the column and the aggregate are set together. *)
Theorem accumulators_follow_aggregate (srv : nat -> string -> Response) (calls : list call) :
  let qs := query_state (run calls (boot srv)) in
  0 <= running_count qs /\
  (running_count qs = 0 ->
   running_sum qs = 0%float /\ running_sum_sq qs = 0%float /\ current_offset qs = 0) /\
  (agg_is (aggregate_function qs) "AVG" = false -> running_sum_sq qs = 0%float) /\
  (agg_is (aggregate_function qs) "SUM" = false ->
   agg_is (aggregate_function qs) "AVG" = false -> running_sum qs = 0%float) /\
  (column_to_query qs = None <-> aggregate_function qs = None).
Proof.
  intros qs.
  destruct (session_inv_run calls (boot srv) (session_inv_boot srv))
    as [I1 I2 I3 I4 I5 I6 I7 I8 I9].
  fold qs in I1, I2, I3, I4, I5, I6, I7, I8, I9.
  unfold CHUNK_SIZE in *.
  split; [exact I5|]. split; [|split; [exact I7|split; [exact I8|exact I9]]].
  intros H0. destruct (I6 H0) as [Hs Hq]. repeat split; try assumption. lia.
Qed.

(** *** The sums after a page *)




(** *** Pages whose values are not read *)

Lemma for_each_all_skipped (col : string) (l : list json) (w : World) :
  forallb (parse_fails float_of_str col) l = true ->
  for_each l (fold_record float_of_str col) w = (Ok tt, w).
Proof.
  induction l as [|r l IH]; intros H; [reflexivity|].
  cbn [forallb] in H. apply andb_prop in H as [Hr Hl].
  cbn [for_each]. unfold bind. rewrite (fold_record_skip _ _ _ _ Hr). apply IH, Hl.
Qed.

(** A fetch over a body of which the loop reads nothing: the aggregate does
    not ask for the values, or no item of the body yields one. *)
Lemma fetch_page_unread (w : World) (data : json) (n : Z) :
  let qs := query_state w in
  fetch_enabled qs = true ->
  next_response w = Body data ->
  py_truthy data = true ->
  py_len data = Ok n ->
  agg_is (aggregate_function qs) "SUM" || agg_is (aggregate_function qs) "AVG" = false \/
  forallb (parse_fails float_of_str (default "" (column_to_query qs))) (py_iter data)
    = true ->
  fetch w = (Ok true, page_consumed n w).
Proof.
  intros qs He Hr Ht Hl Hu.
  rewrite (fetch_page float_of_str w data n He Hr Ht Hl). fold qs.
  unfold page_loop.
  cbn [query_state after_request aggregate_function set_running_count].
  fold qs.
  destruct (agg_is (aggregate_function qs) "SUM"
            || agg_is (aggregate_function qs) "AVG") eqn:Ha.
  - destruct Hu as [Hu|Hu]; [discriminate|].
    rewrite (for_each_all_skipped _ _ _ Hu). reflexivity.
  - reflexivity.
Qed.

(** X8. A non-empty body with a length none of whose items is a record
    (an object, a string, a list of anything but objects) is taken for a
    page: its length is added to the count, the offset moves on, the fetch
    returns [True] and both sums keep their values. *)
Theorem body_without_records_is_counted (w : World) (data : json) (n : Z) :
  fetch_enabled (query_state w) = true ->
  next_response w = Body data ->
  py_truthy data = true ->
  py_len data = Ok n ->
  (forall record : json, In record (py_iter data) ->
     match record with JDict _ => False | _ => True end) ->
  fetch w = (Ok true, page_consumed n w) /\
  running_count (query_state (page_consumed n w)) =
    running_count (query_state w) + n /\
  running_sum (query_state (page_consumed n w)) = running_sum (query_state w) /\
  running_sum_sq (query_state (page_consumed n w)) =
    running_sum_sq (query_state w).
Proof.
  intros He Hr Ht Hl Hd.
  split; [|repeat split].
  apply (fetch_page_unread w data n); try assumption. right.
  apply forallb_forall. intros record Hin. specialize (Hd record Hin).
  unfold parse_fails, record_value.
  destruct record; try reflexivity. contradiction.
Qed.

(** *** A COUNT query run to exhaustion *)

Lemma advanced_page (n k m : Z) (w : World) :
  advanced k m (query_state (page_consumed n w)) =
  advanced (1 + k) (n + m) (query_state w).
Proof.
  unfold advanced, page_consumed, set_current_offset, set_running_count.
  session_fields. f_equal; lia.
Qed.

(** Refining a COUNT query over the pages its source holds next. *)
Lemma count_pages (pages : list (list json)) :
  forall (w : World) (pre rest : list Response),
    server w = scripted (pre ++ map (fun p => Body (JList p)) pages ++ rest) ->
    length pre = length (requested w) ->
    fetch_enabled (query_state w) = true ->
    agg_is (aggregate_function (query_state w)) "SUM" = false ->
    agg_is (aggregate_function (query_state w)) "AVG" = false ->
    Forall (fun p => p <> []) pages ->
    let w' := run (List.repeat Refine (length pages)) w in
    server w' = server w /\
    length (requested w') = (length (requested w) + length pages)%nat /\
    query_state w' =
      advanced (Z.of_nat (length pages)) (total_records pages) (query_state w).
Proof.
  induction pages as [|p pages IH]; intros w pre rest Hs Hl He Hsum Havg Hne w'.
  - subst w'. cbn. split; [reflexivity|]. split; [lia|].
    unfold advanced, total_records, set_current_offset, set_running_count.
    destruct (query_state w). session_fields. cbn [concat length Z.of_nat].
    f_equal; lia.
  - subst w'. cbn [length List.repeat serve_all serve].
    inversion Hne as [|? ? Hp Hne']; subst.
    assert (Hr : next_response w = Body (JList p)).
    { unfold next_response. rewrite Hs. unfold scripted. rewrite <- Hl.
      cbn [map app]. rewrite nth_middle. reflexivity. }
    rewrite refine_world.
    rewrite (fetch_page_unread w (JList p) (Z.of_nat (length p)) He Hr
               (nonempty_truthy _ Hp) eq_refl);
      [|left; rewrite Hsum, Havg; reflexivity].
    cbn [snd].
    specialize (IH (page_consumed (Z.of_nat (length p)) w)
                   (pre ++ [Body (JList p)])%list rest).
    destruct IH as (I1 & I2 & I3).
    + cbn [page_consumed after_request server]. rewrite Hs.
      cbn [map app]. rewrite <- app_assoc. reflexivity.
    + cbn [page_consumed after_request requested]. rewrite !length_app, Hl. reflexivity.
    + exact He.
    + exact Hsum.
    + exact Havg.
    + exact Hne'.
    + split; [rewrite I1; reflexivity|]. split.
      * rewrite I2. cbn [page_consumed after_request requested].
        rewrite length_app. cbn [length]. lia.
      * rewrite I3, advanced_page. unfold total_records. cbn [concat].
        rewrite length_app. f_equal; lia.
Qed.

Lemma column_enables (col : string) (qs : QueryState) :
  col <> "" ->
  is_done qs = false ->
  column_to_query qs = Some col ->
  fetch_enabled qs = true.
Proof.
  intros Hc Hd Hq. unfold fetch_enabled, column_selected. rewrite Hd, Hq.
  destruct (String.eqb_spec col ""); [contradiction|reflexivity].
Qed.

(** X9. A COUNT query over a source that holds a given sequence of
    non-empty pages: after [start_query] and one [refine_query] for each
    further page, the session has counted every record and the offset is
    10000 times the number of pages; the next [refine_query] gets the empty
    page and returns the total, a zero confidence interval and
    [is_done = true], one request having been sent for each page and one
    more. *)
Theorem count_until_exhausted (col : string) (p : list json) (pages : list (list json)) :
  col <> "" ->
  Forall (fun p => p <> []) (p :: pages) ->
  let total := total_records (p :: pages) in
  let w := run (Start (request col "COUNT") :: List.repeat Refine (length pages))
             (boot (scripted (pages_script (p :: pages)))) in
  query_state w =
    advanced (Z.of_nat (length (p :: pages))) total
      (zero_session (request col "COUNT")) /\
  length (requested w) = length (p :: pages) /\
  fst (refine w) =
    Ok {| QueryResult.average := PyInt total;
          QueryResult.confidence_interval := PyInt 0;
          QueryResult.percent_complete := PyInt total;
          QueryResult.is_done := true |} /\
  query_state (snd (refine w)) = set_is_done true (query_state w) /\
  length (requested (snd (refine w))) = S (length (p :: pages)).
Proof.
  intros Hcol Hne total w.
  inversion Hne as [|? ? Hp Hne']; subst.
  set (w0 := set_query_state (zero_session (request col "COUNT"))
               (boot (scripted (pages_script (p :: pages))))).
  assert (He0 : fetch_enabled (query_state w0) = true)
    by (apply (column_enables col); [exact Hcol|reflexivity|reflexivity]).
  set (w1 := page_consumed (Z.of_nat (length p)) w0).
  assert (H1 : snd (start (request col "COUNT")
                      (boot (scripted (pages_script (p :: pages))))) = w1).
  { change (snd (refine w0) = w1). rewrite refine_world.
    rewrite (fetch_page_unread w0 (JList p) (Z.of_nat (length p)) He0 eq_refl
               (nonempty_truthy _ Hp) eq_refl); [reflexivity|].
    left. reflexivity. }
  destruct (count_pages pages w1 [Body (JList p)] [Body (JList [])])
    as (I1 & I2 & I3); try assumption; try reflexivity.
  assert (Hw : w = run (List.repeat Refine (length pages)) w1).
  { unfold w. cbn [serve_all serve]. rewrite H1. reflexivity. }
  rewrite <- Hw in I1, I2, I3.
  assert (Hq : query_state w =
    advanced (Z.of_nat (length (p :: pages))) total
      (zero_session (request col "COUNT"))).
  { rewrite I3. unfold w1. rewrite advanced_page. unfold total, total_records.
    cbn [concat length]. rewrite length_app. f_equal; lia. }
  assert (Hlen : length (requested w) = length (p :: pages)).
  { rewrite I2. cbn. lia. }
  assert (Hew : fetch_enabled (query_state w) = true)
    by (rewrite Hq; apply (column_enables col); [exact Hcol|reflexivity|reflexivity]).
  assert (Hr : next_response w = Body (JList [])).
  { unfold next_response. rewrite I1. cbn [w1 page_consumed after_request server w0
      set_query_state boot]. unfold scripted, pages_script. rewrite Hlen.
    change (p :: pages) with ([p] ++ pages)%list at 2.
    rewrite <- (length_map (fun p => Body (JList p)) (p :: pages)).
    rewrite nth_middle. reflexivity. }
  assert (Hf := fetch_empty float_of_str w (JList []) Hew Hr eq_refl).
  assert (Htot : 0 < total).
  { unfold total, total_records. cbn [concat]. rewrite length_app.
    pose proof (nonempty_length _ Hp). lia. }
  split; [exact Hq|]. split; [exact Hlen|].
  rewrite refine_unfold, Hf. cbn [fst snd after_request query_state requested].
  split; [|split; [reflexivity|rewrite length_app, Hlen; cbn; lia]].
  unfold derived.
  assert (Hc : running_count (set_is_done true (query_state w)) = total).
  { rewrite Hq. unfold advanced. session_fields. lia. }
  rewrite calculate_statistics_COUNT.
  - rewrite Hc. reflexivity.
  - rewrite Hc. lia.
  - rewrite Hq. reflexivity.
Qed.

(** *** A SUM or AVG query run to exhaustion *)






(** *** The URL of a request *)

Lemma to_int_not_nil (z : Z) :
  Z.to_int z <> Decimal.Pos Decimal.Nil /\ Z.to_int z <> Decimal.Neg Decimal.Nil.
Proof.
  destruct z as [|p|p]; cbn; split; try discriminate;
    intros [= H]; exact (DecimalPos.Unsigned.to_uint_nonnil p H).
Qed.

Lemma str_of_Z_inj (a b : Z) : str_of_Z a = str_of_Z b -> a = b.
Proof.
  unfold str_of_Z. intros H.
  destruct (to_int_not_nil a) as [Ha1 Ha2], (to_int_not_nil b) as [Hb1 Hb2].
  pose proof (NilZero.isi (Z.to_int a) Ha1 Ha2) as Ia.
  pose proof (NilZero.isi (Z.to_int b) Hb1 Hb2) as Ib.
  rewrite H in Ia. rewrite Ia in Ib. injection Ib as Ib.
  apply DecimalZ.to_int_inj, Ib.
Qed.

(** X11. For a given column, the URL of a request determines the offset
    it asks for: two offsets give the same URL only if they are equal. *)
Theorem url_determines_offset (col : string) (a b : Z) :
  api_url col a = api_url col b <-> a = b.
Proof.
  split; [|intros ->; reflexivity].
  unfold api_url, soda_query. intros H.
  repeat match type of H with
         | (?p ++ _)%string = (?p ++ _)%string => apply (String.app_inj p) in H
         end.
  apply str_of_Z_inj, H.
Qed.

(** *** What a derived result can say *)

(** X12. What [calculate_statistics] can answer. A result that says done
    comes from a session that is done and has counted a record; the number
    of records reported is the count of the session or the float zero; a
    confidence interval other than zero is reported under AVG only; and
    the only exception is [OverflowError], under AVG with a count other
    than zero. *)
Theorem derived_result_bounds (qs : QueryState) :
  match derived qs with
  | Ok r =>
      (QueryResult.is_done r = true ->
       is_done qs = true /\ running_count qs <> 0) /\
      (QueryResult.percent_complete r = PyInt (running_count qs) \/
       QueryResult.percent_complete r = PyFloat 0) /\
      (pynum_is_zero (QueryResult.confidence_interval r) = false ->
       agg_is (aggregate_function qs) "AVG" = true)
  | Raise e =>
      e = OverflowError /\
      agg_is (aggregate_function qs) "AVG" = true /\
      running_count qs <> 0
  end.
Proof.
  unfold derived, calculate_statistics.
  destruct (Z.eqb_spec (running_count qs) 0) as [E|E].
  - cbn. repeat split; try discriminate. right. reflexivity.
  - destruct (agg_is (aggregate_function qs) "AVG") eqn:Ha.
    + destruct (py_pow2 _) as [sq|e] eqn:P; cbn.
      * repeat split; try assumption; auto.
      * apply py_pow2_raises in P. repeat split; assumption.
    + destruct (agg_is (aggregate_function qs) "SUM");
        [|destruct (agg_is (aggregate_function qs) "COUNT")]; cbn;
        repeat split; try assumption; try discriminate; auto.
Qed.

(** *** Calls that change nothing of the query *)

(** X13. No sequence of [refine_query] calls changes the column or the
    aggregate of the session, and none lowers its count. *)
Theorem refine_keeps_the_query (n : nat) (w : World) :
  let w' := run (List.repeat Refine n) w in
  column_to_query (query_state w') = column_to_query (query_state w) /\
  aggregate_function (query_state w') = aggregate_function (query_state w) /\
  running_count (query_state w) <= running_count (query_state w').
Proof.
  assert (step : forall v : World,
    column_to_query (query_state (snd (fetch v))) = column_to_query (query_state v) /\
    aggregate_function (query_state (snd (fetch v))) =
      aggregate_function (query_state v) /\
    running_count (query_state v) <= running_count (query_state (snd (fetch v)))).
  { intros v. destruct (fetch_cases v); cbn [snd]; session_fields;
      repeat split; try reflexivity; lia. }
  revert w. induction n as [|n IH]; intros w w'; subst w'.
  - cbn. repeat split; try reflexivity; try lia.
  - cbn [List.repeat serve_all serve]. rewrite refine_world.
    destruct (step w) as (S1 & S2 & S3).
    destruct (IH (snd (fetch w))) as (I1 & I2 & I3).
    split; [rewrite I1; exact S1|]. split; [rewrite I2; exact S2|]. lia.
Qed.

(** X14. A query started on the empty column name never fetches:
    [start_query] installs the fresh session, sends no request and returns
    the zero result with [is_done = false]; and so does every
    [refine_query] after it. *)
Theorem empty_column_never_fetches (agg : string) (n : nat) (w : World) :
  let w0 := set_query_state (zero_session (request "" agg)) w in
  start (request "" agg) w = (Ok (to_result (zero_stats false)), w0) /\
  run (Start (request "" agg) :: List.repeat Refine n) w = w0 /\
  refine w0 = (Ok (to_result (zero_stats false)), w0).
Proof.
  intros w0.
  assert (Hd : fetch_enabled (query_state w0) = false) by reflexivity.
  assert (Hs : start (request "" agg) w = (Ok (to_result (zero_stats false)), w0)).
  { change (refine w0 = (Ok (to_result (zero_stats false)), w0)).
    rewrite (refine_disabled _ _ Hd). reflexivity. }
  split; [exact Hs|]. split.
  - cbn [serve_all serve]. rewrite Hs. cbn [snd].
    apply serve_all_disabled; [|exact Hd].
    clear. induction n; [reflexivity|assumption].
  - rewrite (refine_disabled _ _ Hd). reflexivity.
Qed.

End Sessions.

(** ** The further properties at concrete worlds *)



(** A sum under way whose source runs dry: three calls leave what the first
    one left, one request sent. *)
Lemma exhaustion_is_terminal_witness :
  serve_all float_of_numeral (List.repeat Refine 3) drained_world =
    after_request (next_url sum_session) (set_is_done true sum_session)
      drained_world.
Proof.
  apply (exhaustion_is_terminal float_of_numeral drained_world 2 eq_refl).
  right. exists (JList []). split; reflexivity.
Defined.




Lemma error_body_keys :
  py_iter error_body = [JStr "error"; JStr "message"] \/
  py_iter error_body = [JStr "message"; JStr "error"].
Proof. vm_compute. auto. Qed.

Lemma error_body_shape :
  py_truthy error_body = true /\ py_len error_body = Ok 2 /\
  forall record : json, In record (py_iter error_body) ->
    match record with JDict _ => False | _ => True end.
Proof.
  split; [vm_compute; reflexivity|]. split; [vm_compute; reflexivity|].
  intros record H.
  destruct error_body_keys as [E|E]; rewrite E in H;
    destruct H as [<-|[<-|[]]]; exact I.
Qed.

(** An error object of two fields in place of a page: two records are
    counted and the window moves on. *)
Lemma body_without_records_is_counted_witness :
  fetch_next_chunk float_of_numeral error_world =
    (Ok true, page_consumed 2 error_world).
Proof.
  destruct error_body_shape as (Ht & Hl & Hi).
  apply (body_without_records_is_counted float_of_numeral error_world error_body 2
           eq_refl eq_refl Ht Hl Hi).
Defined.

Lemma price_is_a_column : "price" <> "".
Proof. discriminate. Qed.

Lemma two_pages_nonempty : Forall (fun p : list json => p <> []) two_pages.
Proof. repeat constructor; discriminate. Qed.

(** A COUNT over two pages of two records and one: the call after the
    last page answers 3, done. *)
Lemma count_until_exhausted_witness :
  let w := serve_all float_of_numeral [Start (request "price" "COUNT"); Refine]
             (boot (scripted (pages_script two_pages))) in
  fst (refine_query float_of_numeral w) =
    Ok {| QueryResult.average := PyInt 3;
          QueryResult.confidence_interval := PyInt 0;
          QueryResult.percent_complete := PyInt 3;
          QueryResult.is_done := true |}.
Proof.
  pose proof (count_until_exhausted float_of_numeral "price" [JNull; JNull] [[JNull]]
                price_is_a_column two_pages_nonempty) as H.
  cbv zeta in H. destruct H as (_ & _ & H & _). exact H.
Defined.



